(** * vectorbt: the OHLCV accessor's [plot] (vectorbt/ohlcv_accessors.py)

    A shallow embedding of [OHLCVDFAccessor.plot] and of the collaborators it
    calls, followed by the properties of the rendering contract.

    Conventions of the embedding
    - Column labels are ASCII strings; [lower] is Python's [str.lower] on
      ASCII text.
    - Numeric cells are IEEE binary64 values (pandas' float64), as the
      kernel's primitive floats: NaN, infinities and signed zeros included.
    - Keyword arguments and plotly property dictionaries are finite maps
      from names to values ([kwargs]); a Python dict never holds a key twice.
    - Figures are mutable objects: they live in a store and are passed by
      location, so a mutation made before an exception stays visible.
    - Python exceptions are results of the [M] monad.
    - plotly validates what it is given and raises when it refuses. Which
      arguments it accepts is taken as given ([Plotly]): every statement
      holds whatever plotly accepts, and the sample runs use the checks of
      [plotly_checks]. *)

From Stdlib Require Import Floats Ascii String.
From stdpp Require Import gmap strings list fin_maps.

Set Default Proof Using "Type".
Set Warnings "-inexact-float".
Local Open Scope string_scope.
Local Open Scope list_scope.

(** ** Strings: [str.lower] *)

Module Str.

Definition ascii_lower (c : ascii) : ascii :=
  let n := N_of_ascii c in
  if ((65 <=? n) && (n <=? 90))%N then ascii_of_N (n + 32) else c.

Definition ascii_upper (c : ascii) : ascii :=
  let n := N_of_ascii c in
  if ((97 <=? n) && (n <=? 122))%N then ascii_of_N (n - 32) else c.

Fixpoint lower (s : string) : string :=
  match s with
  | EmptyString => EmptyString
  | String c s' => String (ascii_lower c) (lower s')
  end.

Fixpoint upper (s : string) : string :=
  match s with
  | EmptyString => EmptyString
  | String c s' => String (ascii_upper c) (upper s')
  end.

(** Two labels are the same up to case when [str.lower] identifies them:
    this is the comparison [plot] makes. *)
Definition caseless_eq (s t : string) : Prop := lower s = lower t.

End Str.

(** ** Python values *)

(** plotly's trace classes; [CustomTrace n] is any other trace constructor a
    caller may hand in, known only by its identity. *)
Inductive TraceClass : Type :=
| Ohlc
| Candlestick
| Bar
| CustomTrace (n : nat).

(** A pandas Series of float64 cells. *)
Abbreviation Series := (list float).

#[warnings="-register-all"]
Inductive value : Type :=
| VNone
| VBool (b : bool)
| VInt (z : Z)
| VFloat (x : float)
| VStr (s : string)
| VSeries (xs : Series)
| VArray (xs : list value)
| VClass (c : TraceClass)
| VDict (d : gmap string value).

Abbreviation kwargs := (gmap string value).

(** The recursive dictionary merge shared by [merge_dicts] and by plotly's
    [update]: for every key of the second dictionary, two nested dictionaries
    are merged recursively and any other value replaces what was there; keys
    of the first dictionary alone are kept. *)
Fixpoint merge_value (b o : value) {struct o} : value :=
  match o with
  | VDict od =>
      match b with
      | VDict bd =>
          VDict (map_imap (fun k ov =>
                   Some (match bd !! k with
                         | Some bv => merge_value bv ov
                         | None => ov
                         end)) od ∪ bd)
      | _ => o
      end
  | _ => o
  end.

Definition merge_entry (bd : kwargs) (k : string) (ov : value) : value :=
  match bd !! k with
  | Some bv => merge_value bv ov
  | None => ov
  end.

Definition merge_kwargs (bd od : kwargs) : kwargs :=
  map_imap (fun k ov => Some (merge_entry bd k ov)) od ∪ bd.

(** Modelled from the spec: [vectorbt.utils.config.merge_dicts] is not part
    of the sources at hand. Section 4.6: deterministic recursive merge of two
    nested option bags, [base] and [override]; for every key present in
    [override], if both sides hold nested bags they are merged recursively,
    otherwise the value from [override] replaces [base]'s; keys present only
    in [base] are preserved; the merge always produces a new bag. *)
Definition merge_dicts (base override : kwargs) : kwargs :=
  merge_kwargs base override.

(** Option bags as Python objects: a store of dictionaries addressed by
    reference. [merge_dicts_obj] is [merge_dicts] on references: it reads both
    arguments and allocates the merged bag at a new reference. *)
Abbreviation dict_store := (list (gmap string value)).

Definition merge_dicts_obj (st : dict_store) (base override : nat)
  : option (dict_store * nat) :=
  match st !! base, st !! override with
  | Some b, Some o => Some (st ++ [merge_dicts b o], length st)
  | _, _ => None
  end.

(** plotly's [BasePlotlyType.update] and [Figure.update_layout], called
    with keyword arguments:
    nested property dictionaries are updated recursively, other properties are
    assigned. Keys are kept as the caller spells them: a key such as
    [line_width], which plotly reads as the path [line.width], stays one key
    of the dictionary it was given in. *)
Definition plotly_update (props kw : kwargs) : kwargs :=
  merge_kwargs props kw.

(** ** The DataFrame *)

(** A DataFrame: the shared index and the columns in the caller's order, each
    a label with its cells. A DataFrame's columns all have the length of its
    index. *)
Record Frame : Type := {
  index : list value;
  cols : list (string * Series)
}.

(** [df.columns] *)
Definition columns (df : Frame) : list string := map fst (cols df).

(** Python's [x in l] on a list of strings. *)
Definition contains (x : string) (l : list string) : bool :=
  bool_decide (x ∈ l).

(** Python's [l.index(x)]: the position of the first element equal to [x];
    [None] stands for the ValueError it raises when there is none. *)
Fixpoint list_index (x : string) (l : list string) : option nat :=
  match l with
  | [] => None
  | y :: l' => if decide (y = x) then Some 0 else S <$> list_index x l'
  end.

(** ** Configuration *)

(** The five roles and the mapping from role to expected label
    ([column_names], a dict with the keys open, high, low, close, volume). *)
Inductive Role : Type := open | high | low | close | volume.

Record ColumnNames : Type := {
  cn_open : string;
  cn_high : string;
  cn_low : string;
  cn_close : string;
  cn_volume : string
}.

(** [column_names[role]] *)
Definition label_of (column_names : ColumnNames) (r : Role) : string :=
  match r with
  | open => cn_open column_names
  | high => cn_high column_names
  | low => cn_low column_names
  | close => cn_close column_names
  | volume => cn_volume column_names
  end.

(** The [plot_type] argument: a string or a trace class. *)
Inductive PlotType : Type :=
| PTStr (s : string)
| PTClass (c : TraceClass).

(** [settings['plotting']['color_schema']], the three entries [plot] reads. *)
Record ColorSchema : Type := {
  increasing : value;
  decreasing : value;
  gray : value
}.

(** [settings['ohlcv']] and [settings['plotting']]. *)
Record Settings : Type := {
  ohlcv_column_names : ColumnNames;
  ohlcv_plot_type : PlotType;
  color_schema : ColorSchema
}.

(** The accessor object: [self.obj] and [self.column_names];
    [self.wrapper.index] is the frame's index. *)
Record OHLCVDFAccessor : Type := {
  obj : Frame;
  column_names : option ColumnNames
}.

(** ** plotly: traces and figures *)

(** A trace object: the class that made it and the properties it was given. *)
Record Trace : Type := mk_trace {
  trace_class : TraceClass;
  trace_props : kwargs
}.

(** The effect of [trace.update] with keyword arguments *)
Definition trace_update (t : Trace) (kw : kwargs) : Trace :=
  {| trace_class := trace_class t;
     trace_props := plotly_update (trace_props t) kw |}.

(** The subplot grid of a figure made by [make_subplots], as requested. *)
Record Subplots : Type := {
  sp_rows : nat;
  sp_cols : nat;
  sp_shared_xaxes : bool;
  sp_vertical_spacing : value;
  sp_row_heights : list float
}.

(** A figure: its grid (none for a plain figure), its layout, and its traces
    in the order they were added, each with the keyword arguments [add_trace]
    received for its placement. *)
Record Figure : Type := {
  fig_subplots : option Subplots;
  fig_layout : kwargs;
  fig_data : list (Trace * kwargs)
}.

(** The number of panels of a figure and their shares of the height. *)
Definition panels (f : Figure) : nat :=
  match fig_subplots f with
  | None => 1
  | Some g => sp_rows g * sp_cols g
  end.

Definition panel_heights (f : Figure) : list float :=
  match fig_subplots f with
  | None => [1%float]
  | Some g => sp_row_heights g
  end.

(** ** The store of figures and the monad of [plot] *)

Inductive exn : Type :=
| MissingColumnError (label : string)
  (* the ValueError of [list.index]: [label] is not in the list *)
| InvalidPlotTypeError
  (* ValueError("Plot type can be either 'OHLC' or 'Candlestick'") *)
| IndexError
  (* [iloc] out of bounds *)
| PlotlyError.
  (* the exception of a plotly call that refuses its arguments *)

Inductive result (A : Type) : Type :=
| Return (a : A)
| Raise (e : exn).
Arguments Return {A} a.
Arguments Raise {A} e.

(** Figures are objects: a figure is known by its location in the store. *)
Abbreviation store := (list Figure).

Definition M (A : Type) : Type := store -> store * result A.

Definition ret {A} (a : A) : M A := fun st => (st, Return a).

Definition raise {A} (e : exn) : M A := fun st => (st, Raise e).

Definition bind {A B} (m : M A) (k : A -> M B) : M B :=
  fun st =>
    match m st with
    | (st', Return a) => k a st'
    | (st', Raise e) => (st', Raise e)
    end.

#[global] Instance M_ret : MRet M := @ret.
#[global] Instance M_bind : MBind M := fun A B k m => bind m k.

(** A computation that leaves the store alone. *)
Definition lift {A} (r : result A) : M A := fun st => (st, r).

(** Allocation of a new figure object. *)
Definition new_figure (f : Figure) : M nat :=
  fun st => (st ++ [f], Return (length st)).

(** In-place mutation of the figure at a location. *)
Definition modify_figure (l : nat) (g : Figure -> Figure) : M unit :=
  fun st => (alter g l st, Return tt).

(** Modelled from the spec: [vectorbt.utils.figure.make_figure] is not part
    of the sources at hand. Section 4.3: when volume is hidden the figure has
    a single panel that spans 100% of the height. *)
Definition make_figure : M nat :=
  new_figure {| fig_subplots := None; fig_layout := ∅; fig_data := [] |}.

(** Modelled from the spec: [vectorbt.utils.figure.make_subplots] is not part
    of the sources at hand. Section 4.3 and 6: subplot allocation with shared
    axes and height ratios; the figure records the grid it was asked for. *)
Definition make_subplots (rows cols : nat) (shared_xaxes : bool)
    (vertical_spacing : value) (row_heights : list float) : M nat :=
  new_figure
    {| fig_subplots :=
         Some {| sp_rows := rows; sp_cols := cols;
                 sp_shared_xaxes := shared_xaxes;
                 sp_vertical_spacing := vertical_spacing;
                 sp_row_heights := row_heights |};
       fig_layout := ∅; fig_data := [] |}.

(** The two mutations [plot] performs on a figure. *)
Definition set_layout (kw : kwargs) (f : Figure) : Figure :=
  {| fig_subplots := fig_subplots f;
     fig_layout := plotly_update (fig_layout f) kw;
     fig_data := fig_data f |}.

Definition push_trace (t : Trace) (kw : kwargs) (f : Figure) : Figure :=
  {| fig_subplots := fig_subplots f;
     fig_layout := fig_layout f;
     fig_data := fig_data f ++ [(t, kw)] |}.

(** Lines 109-118: the keyword arguments of the first baseline
    [update_layout]. *)
Definition baseline_layout : kwargs :=
  {[ "showlegend" := VBool true;
     "xaxis" := VDict {[ "rangeslider_visible" := VBool false;
                         "showgrid" := VBool true ]};
     "yaxis" := VDict {[ "showgrid" := VBool true ]} ]}.

(** Lines 120-128: those of the second one, made when volume is displayed. *)
Definition baseline_layout_volume : kwargs :=
  {[ "xaxis2" := VDict {[ "showgrid" := VBool true ]};
     "yaxis2" := VDict {[ "showgrid" := VBool true ]};
     "bargap" := VInt 0 ]}.

(** ** plotly's checks *)

(** What plotly accepts: the keyword arguments of a trace class, those of
    [trace.update], those of [fig.update_layout], and the placement of a
    trace in a figure by [fig.add_trace]. A call that is refused raises and
    changes nothing. The baseline arguments of lines 109-128 are layout
    properties of plotly and are accepted. *)
Record Plotly : Type := {
  accepts_trace : TraceClass -> kwargs -> bool;
  accepts_update : Trace -> kwargs -> bool;
  accepts_layout : kwargs -> bool;
  accepts_placement : Figure -> Trace -> kwargs -> bool;
  accepts_baseline : accepts_layout baseline_layout = true;
  accepts_baseline_volume : accepts_layout baseline_layout_volume = true
}.

(** The checks of the sample runs: one behaviour among those the statements
    range over, which refuses what plotly is known to refuse. A trace of
    plotly's own classes takes a name that is a string or a number, and
    marker colours without [None]; a constructor of the caller's takes what
    it is given. A layout takes the properties listed. A placement by row
    and column needs both, as integers, and a grid that has the cell. *)
Definition name_ok (kw : kwargs) : bool :=
  match kw !! "name" with
  | None | Some VNone | Some (VStr _) | Some (VInt _) | Some (VFloat _) => true
  | Some _ => false
  end.

Definition is_colour (v : value) : bool :=
  match v with
  | VNone => false
  | _ => true
  end.

Definition marker_ok (kw : kwargs) : bool :=
  match kw !! "marker" with
  | Some (VDict m) =>
      match m !! "color" with
      | Some (VArray xs) => forallb is_colour xs
      | _ => true
      end
  | _ => true
  end.

Definition props_ok (c : TraceClass) (kw : kwargs) : bool :=
  match c with
  | CustomTrace _ => true
  | _ => name_ok kw && marker_ok kw
  end.

Definition known_layout : list string :=
  ["showlegend"; "xaxis"; "yaxis"; "xaxis2"; "yaxis2"; "bargap"; "title";
   "width"; "height"; "template"; "margin"].

Definition layout_ok (kw : kwargs) : bool :=
  forallb (fun k => bool_decide (k ∈ known_layout)) (map fst (map_to_list kw)).

Definition cell_ok (f : Figure) (kw : kwargs) : bool :=
  match kw !! "row", kw !! "col" with
  | None, None => true
  | Some (VInt r), Some (VInt c) =>
      match fig_subplots f with
      | Some g =>
          (1 <=? r)%Z && (r <=? Z.of_nat (sp_rows g))%Z &&
          (1 <=? c)%Z && (c <=? Z.of_nat (sp_cols g))%Z
      | None => false
      end
  | _, _ => false
  end.

Definition plotly_checks : Plotly :=
  {| accepts_trace := props_ok;
     accepts_update := fun t kw => props_ok (trace_class t) kw;
     accepts_layout := layout_ok;
     accepts_placement := fun f _ kw => cell_ok f kw;
     accepts_baseline := eq_refl;
     accepts_baseline_volume := eq_refl |}.

Section Render.

Context (P : Plotly).

(** The call of a trace class with keyword arguments: the trace with these
    properties, if plotly accepts them. *)
Definition construct (c : TraceClass) (kw : kwargs) : M Trace :=
  if accepts_trace P c kw then mret (mk_trace c kw) else raise PlotlyError.

(** [trace.update] with keyword arguments *)
Definition update_trace (t : Trace) (kw : kwargs) : M Trace :=
  if accepts_update P t kw then mret (trace_update t kw)
  else raise PlotlyError.

(** [fig.update_layout] with keyword arguments *)
Definition update_layout (fig : nat) (kw : kwargs) : M unit :=
  if accepts_layout P kw then modify_figure fig (set_layout kw)
  else raise PlotlyError.

(** [fig.add_trace(trace, **kw)]. A location always holds a figure; were
    there none, nothing would be done. *)
Definition add_trace (fig : nat) (t : Trace) (kw : kwargs) : M unit :=
  fun st =>
    match st !! fig with
    | Some f =>
        if accepts_placement P f t kw
        then (alter (push_trace t kw) fig st, Return tt)
        else (st, Raise PlotlyError)
    | None => (st, Return tt)
    end.

(** [l.index(x)] in the monad *)
Definition index_of (l : list string) (x : string) : M nat :=
  match list_index x l with
  | Some i => ret i
  | None => raise (MissingColumnError x)
  end.

(** [df.iloc[:, i]] *)
Definition iloc (df : Frame) (i : nat) : M Series :=
  match cols df !! i with
  | Some (_, s) => ret s
  | None => raise IndexError
  end.

(** ** [OHLCVDFAccessor.plot] *)

(** Lines 92-93: an explicit [display_volume] is kept; [None] is replaced by
    the presence of the volume label among the lowered column labels. *)
Definition resolve_display_volume (display_volume : option bool)
    (column_names : ColumnNames) (df_column_names : list string) : bool :=
  match display_volume with
  | None => contains (Str.lower (cn_volume column_names)) df_column_names
  | Some b => b
  end.

(** Lines 98-101 and 165: [self.obj.iloc[:, df_column_names.index(label.lower())]] *)
Definition column_of (df : Frame) (df_column_names : list string)
    (label : string) : M Series :=
  i ← index_of df_column_names (Str.lower label);
  iloc df i.

(** Lines 104-128: the figure passed in, or a new one with the baseline
    layout. *)
Definition setup_figure (fig : option nat) (display_volume : bool) : M nat :=
  match fig with
  | None =>
      fig ← (if display_volume
             then make_subplots 2 1 true (VInt 0) [0.7%float; 0.3%float]
             else make_figure);
      update_layout fig baseline_layout;;
      (if display_volume
       then update_layout fig baseline_layout_volume
       else mret tt);;
      mret fig
  | Some fig => mret fig
  end.

(** Lines 132-142: the name passed to the trace constructor and the
    constructor itself. In the last branch [plot_type] is not rebound, so the
    name is the trace class handed in. *)
Definition resolve_plot_type (plot_type : PlotType)
  : result (value * TraceClass) :=
  match plot_type with
  | PTStr s =>
      if decide (Str.lower s = "ohlc") then Return (VStr "OHLC", Ohlc)
      else if decide (Str.lower s = "candlestick")
           then Return (VStr "Candlestick", Candlestick)
           else Raise InvalidPlotTypeError
  | PTClass c => Return (VClass c, c)
  end.

(** numpy: [close.values - open.values], elementwise. *)
Definition values_sub (a b : Series) : Series :=
  zip_with PrimFloat.sub a b.

(** numpy: [arr[mask] = v] for a boolean mask of the array's shape. *)
Definition mask_assign (arr : list value) (mask : list bool) (v : value)
  : list value :=
  imap (fun i a => if default false (mask !! i) then v else a) arr.

(** Lines 167-170: an object array of the volume's shape, filled by three
    masked assignments. *)
Definition marker_colors_of (cs : ColorSchema) (open close volume : Series)
  : list value :=
  let marker_colors := replicate (length volume) VNone in
  let marker_colors :=
    mask_assign marker_colors
      (map (fun d => (0 <? d)%float) (values_sub close open)) (increasing cs) in
  let marker_colors :=
    mask_assign marker_colors
      (map (fun d => (d =? 0)%float) (values_sub close open)) (gray cs) in
  let marker_colors :=
    mask_assign marker_colors
      (map (fun d => (d <? 0)%float) (values_sub close open)) (decreasing cs) in
  marker_colors.

(** Lines 143-160: the keyword arguments of the price trace. *)
Definition ohlc_props (cs : ColorSchema) (x : list value)
    (open high low close : Series) (name : value) : kwargs :=
  {[ "x" := VArray x;
     "open" := VSeries open;
     "high" := VSeries high;
     "low" := VSeries low;
     "close" := VSeries close;
     "name" := name;
     "increasing" := VDict {[ "line" := VDict {[ "color" := increasing cs ]} ]};
     "decreasing" := VDict {[ "line" := VDict {[ "color" := decreasing cs ]} ]} ]}.

(** Lines 171-180: the keyword arguments of the volume bar. *)
Definition volume_props (x : list value) (volume : Series)
    (marker_colors : list value) : kwargs :=
  {[ "x" := VArray x;
     "y" := VSeries volume;
     "marker" := VDict {[ "color" := VArray marker_colors;
                          "line_width" := VInt 0 ]};
     "opacity" := VFloat 0.5%float;
     "name" := VStr "Volume" ]}.

(** Lines 44-184, statement by statement. [fig] is the location of the
    caller's figure, if any, and the result is the location of the figure
    worked on. The trace constructors, [update], [update_layout] and
    [add_trace] raise when plotly refuses their arguments. The records
    [ColumnNames] and [ColorSchema] hold every key [plot] reads, so the
    lookups in them cannot fail. *)
Definition plot (settings : Settings) (self : OHLCVDFAccessor)
    (plot_type : option PlotType) (display_volume : option bool)
    (ohlc_kwargs volume_kwargs : option kwargs)
    (ohlc_add_trace_kwargs volume_add_trace_kwargs : option kwargs)
    (fig : option nat) (layout_kwargs : kwargs) : M nat :=
  let column_names :=
    match column_names self with
    | None => ohlcv_column_names settings
    | Some c => c
    end in
  let df_column_names := map Str.lower (columns (obj self)) in
  let ohlc_kwargs := default ∅ ohlc_kwargs in
  let volume_kwargs := default ∅ volume_kwargs in
  let ohlc_add_trace_kwargs := default ∅ ohlc_add_trace_kwargs in
  let volume_add_trace_kwargs := default ∅ volume_add_trace_kwargs in
  let display_volume :=
    resolve_display_volume display_volume column_names df_column_names in
  let ohlc_add_trace_kwargs :=
    if display_volume
    then merge_dicts {[ "row" := VInt 1; "col" := VInt 1 ]} ohlc_add_trace_kwargs
    else ohlc_add_trace_kwargs in
  let volume_add_trace_kwargs :=
    if display_volume
    then merge_dicts {[ "row" := VInt 2; "col" := VInt 1 ]} volume_add_trace_kwargs
    else volume_add_trace_kwargs in
  open ← column_of (obj self) df_column_names (cn_open column_names);
  high ← column_of (obj self) df_column_names (cn_high column_names);
  low ← column_of (obj self) df_column_names (cn_low column_names);
  close ← column_of (obj self) df_column_names (cn_close column_names);
  fig ← setup_figure fig display_volume;
  update_layout fig layout_kwargs;;
  let plot_type := default (ohlcv_plot_type settings) plot_type in
  '(plot_type, plot_obj) ← lift (resolve_plot_type plot_type);
  ohlc ← construct plot_obj
           (ohlc_props (color_schema settings) (index (obj self))
              open high low close plot_type);
  ohlc ← update_trace ohlc ohlc_kwargs;
  add_trace fig ohlc ohlc_add_trace_kwargs;;
  (if display_volume
   then
     volume ← column_of (obj self) df_column_names (cn_volume column_names);
     let marker_colors :=
       marker_colors_of (color_schema settings) open close volume in
     volume_bar ← construct Bar
                    (volume_props (index (obj self)) volume marker_colors);
     volume_bar ← update_trace volume_bar volume_kwargs;
     add_trace fig volume_bar volume_add_trace_kwargs
   else mret tt);;
  mret fig.

(** * Vocabulary of the statements *)

(** The mapping in force: the accessor's own, else the configured one
    (line 81). *)
Definition names_in_force (settings : Settings) (self : OHLCVDFAccessor)
  : ColumnNames :=
  match column_names self with
  | None => ohlcv_column_names settings
  | Some c => c
  end.

(** Line 82 *)
Definition df_column_names (df : Frame) : list string :=
  map Str.lower (columns df).

(** The column position a role resolves to: the argument [plot] gives to
    [iloc] for that role. *)
Definition resolve (df : Frame) (names : ColumnNames) (r : Role) : option nat :=
  list_index (Str.lower (label_of names r)) (df_column_names df).

(** The cells of the column at a position (empty when there is none). *)
Definition series_at (df : Frame) (i : nat) : Series :=
  default [] (snd <$> cols df !! i).

(** Whether [plot] displays the volume for these arguments. *)
Definition shows_volume (settings : Settings) (self : OHLCVDFAccessor)
    (display_volume : option bool) : bool :=
  resolve_display_volume display_volume (names_in_force settings self)
    (df_column_names (obj self)).

(** The figure a call without [fig] creates, as it is after line 128. *)
Definition fresh_figure (display_volume : bool) : Figure :=
  if display_volume
  then
    set_layout baseline_layout_volume
      (set_layout baseline_layout
         {| fig_subplots :=
              Some {| sp_rows := 2; sp_cols := 1; sp_shared_xaxes := true;
                      sp_vertical_spacing := VInt 0;
                      sp_row_heights := [0.7%float; 0.3%float] |};
            fig_layout := ∅; fig_data := [] |})
  else
    set_layout baseline_layout
      {| fig_subplots := None; fig_layout := ∅; fig_data := [] |}.

(** The placement arguments of a trace as [plot] passes them to [add_trace]
    (lines 94-96). *)
Definition placement (display_volume : bool) (row : Z)
    (add_trace_kwargs : option kwargs) : kwargs :=
  if display_volume
  then merge_dicts {[ "row" := VInt row; "col" := VInt 1 ]}
         (default ∅ add_trace_kwargs)
  else default ∅ add_trace_kwargs.

(** The price trace and the volume bar as they are added to the figure. *)
Definition price_trace (settings : Settings) (df : Frame)
    (o h l c : Series) (name : value) (plot_obj : TraceClass)
    (ohlc_kwargs : option kwargs) : Trace :=
  trace_update
    (mk_trace plot_obj
       (ohlc_props (color_schema settings) (index df) o h l c name))
    (default ∅ ohlc_kwargs).

Definition volume_bar (settings : Settings) (df : Frame)
    (o c v : Series) (volume_kwargs : option kwargs) : Trace :=
  trace_update
    (mk_trace Bar
       (volume_props (index df) v
          (marker_colors_of (color_schema settings) o c v)))
    (default ∅ volume_kwargs).

(** The store and the location [plot] works on once line 128 is passed. *)
Definition store_after_setup (fig : option nat) (dv : bool) (st : store)
  : store :=
  match fig with
  | None => st ++ [fresh_figure dv]
  | Some _ => st
  end.

Definition figure_loc (fig : option nat) (st : store) : nat :=
  match fig with
  | None => length st
  | Some l => l
  end.

(** What a successful call has done to the figure it worked on. *)
Definition with_price (settings : Settings) (self : OHLCVDFAccessor)
    (dv : bool) (okw oak : option kwargs) (lk : kwargs)
    (io ih il ic : nat) (name : value) (plot_obj : TraceClass)
    (f : Figure) : Figure :=
  let df := obj self in
  push_trace
    (price_trace settings df (series_at df io) (series_at df ih)
       (series_at df il) (series_at df ic) name plot_obj okw)
    (placement dv 1 oak) (set_layout lk f).

Definition with_volume (settings : Settings) (self : OHLCVDFAccessor)
    (dv : bool) (vkw vak : option kwargs) (io ic iv : nat)
    (f : Figure) : Figure :=
  let df := obj self in
  push_trace
    (volume_bar settings df (series_at df io) (series_at df ic)
       (series_at df iv) vkw)
    (placement dv 2 vak) f.

(** The figure a call works on, before line 129: the caller's, or the new
    one. *)
Definition figure_before (fig : option nat) (dv : bool) (st : store)
  : option Figure :=
  match fig with
  | None => Some (fresh_figure dv)
  | Some l => st !! l
  end.

(** The traces a successful call adds, in order. *)
Definition traces_added (settings : Settings) (self : OHLCVDFAccessor)
    (dvo : option bool) (okw vkw oak vak : option kwargs)
    (io ih il ic : nat) (name : value) (plot_obj : TraceClass)
  : list (Trace * kwargs) :=
  let df := obj self in
  let dv := shows_volume settings self dvo in
  (price_trace settings df (series_at df io) (series_at df ih)
     (series_at df il) (series_at df ic) name plot_obj okw,
   placement dv 1 oak)
  :: match (if dv then resolve df (names_in_force settings self) volume
            else None) with
     | Some iv =>
         [(volume_bar settings df (series_at df io) (series_at df ic)
             (series_at df iv) vkw,
           placement dv 2 vak)]
     | None => []
     end.

(** The grid line 106 asks for. *)
Definition two_panels : Subplots :=
  {| sp_rows := 2; sp_cols := 1; sp_shared_xaxes := true;
     sp_vertical_spacing := VInt 0;
     sp_row_heights := [0.7%float; 0.3%float] |}.

(** The panels of a figure [plot] created: one panel of full height, or two
    stacked panels on a shared x axis, heights 0.7 and 0.3, no gap. *)
Definition panel_allocation (dv : bool) (f : Figure) : Prop :=
  if dv
  then fig_subplots f = Some two_panels /\ panels f = 2 /\
       panel_heights f = [0.7%float; 0.3%float]
  else fig_subplots f = None /\ panels f = 1 /\
       panel_heights f = [1%float].

(** The baseline layout: legend shown, x grid lines without range slider,
    y grid lines; with the volume panel, grid lines on its axes and no gap
    between bars. *)
Definition baseline_applied (dv : bool) (layout : kwargs) : Prop :=
  layout !! "showlegend" = Some (VBool true) /\
  layout !! "xaxis"
    = Some (VDict {[ "rangeslider_visible" := VBool false;
                     "showgrid" := VBool true ]}) /\
  layout !! "yaxis" = Some (VDict {[ "showgrid" := VBool true ]}) /\
  layout !! "xaxis2"
    = (if dv then Some (VDict {[ "showgrid" := VBool true ]}) else None) /\
  layout !! "yaxis2"
    = (if dv then Some (VDict {[ "showgrid" := VBool true ]}) else None) /\
  layout !! "bargap" = (if dv then Some (VInt 0) else None).

(** ** Sample data *)

Definition ex_names : ColumnNames :=
  {| cn_open := "Open"; cn_high := "High"; cn_low := "Low";
     cn_close := "Close"; cn_volume := "Volume" |}.

Definition ex_colors : ColorSchema :=
  {| increasing := VStr "#1f77b4";
     decreasing := VStr "#ff7f0e";
     gray := VStr "#7f7f7f" |}.

Definition ex_settings : Settings :=
  {| ohlcv_column_names := ex_names;
     ohlcv_plot_type := PTStr "OHLC";
     color_schema := ex_colors |}.

Definition ex_index : list value := [VInt 0; VInt 1; VInt 2].

(** Three rows whose close - open is +1, 0, -1. *)
Definition ex_frame : Frame :=
  {| index := ex_index;
     cols := [("Open", [10; 11; 12]%float); ("High", [12; 12; 12]%float);
              ("Low", [9; 9; 9]%float); ("Close", [11; 11; 11]%float);
              ("Volume", [100; 200; 300]%float)] |}.

Definition ex_frame_no_volume : Frame :=
  {| index := ex_index;
     cols := [("Open", [10; 11; 12]%float); ("High", [12; 12; 12]%float);
              ("Low", [9; 9; 9]%float); ("Close", [11; 11; 11]%float)] |}.

Definition ex_frame_no_close : Frame :=
  {| index := ex_index;
     cols := [("Open", [10; 11; 12]%float); ("High", [12; 12; 12]%float);
              ("Low", [9; 9; 9]%float); ("Volume", [100; 200; 300]%float)] |}.

(** Two columns that differ by case only, for open and for volume. *)
Definition ex_frame_dup : Frame :=
  {| index := ex_index;
     cols := [("OPEN", [1; 1; 1]%float); ("Open", [10; 11; 12]%float);
              ("High", [12; 12; 12]%float); ("Low", [9; 9; 9]%float);
              ("Close", [11; 11; 11]%float);
              ("volume", [100; 200; 300]%float); ("VOLUME", [7; 7; 7]%float)] |}.

Definition ex_self (df : Frame) : OHLCVDFAccessor :=
  {| obj := df; column_names := None |}.

(** A figure a caller made earlier, with two stacked panels, a layout and a
    trace of its own. *)
Definition ex_figure : Figure :=
  {| fig_subplots := Some two_panels;
     fig_layout := {[ "title" := VStr "mine" ]};
     fig_data := [(mk_trace (CustomTrace 0) ∅, ∅)] |}.

Definition ex_base : kwargs :=
  {[ "a" := VInt 1; "b" := VDict {[ "c" := VInt 2 ]} ]}.

Definition ex_override : kwargs :=
  {[ "b" := VDict {[ "d" := VInt 3 ]} ]}.

(** ** Outcome of a call *)

(** The plot types line 132-140 accept. *)
Definition valid_plot_type (p : PlotType) : Prop :=
  match p with
  | PTStr s => Str.lower s = "ohlc" \/ Str.lower s = "candlestick"
  | PTClass _ => True
  end.

(** The first required role, in the order of lines 98-101, that no column
    matches. *)
Definition first_missing (df : Frame) (names : ColumnNames) : option Role :=
  find (fun r => bool_decide (resolve df names r = None))
    [open; high; low; close].

(** Two plot types that differ by the case of a string only. *)
Definition plot_type_caseless (p q : PlotType) : Prop :=
  match p, q with
  | PTStr s, PTStr t => Str.caseless_eq s t
  | PTClass c, PTClass d => c = d
  | _, _ => False
  end.

(** The sample table with other casings of its labels. *)
Definition ex_frame_recased : Frame :=
  {| index := ex_index;
     cols := [("OPEN", [10; 11; 12]%float); ("high", [12; 12; 12]%float);
              ("lOW", [9; 9; 9]%float); ("cLoSe", [11; 11; 11]%float);
              ("VOLUME", [100; 200; 300]%float)] |}.

Definition ex_names_recased : ColumnNames :=
  {| cn_open := "open"; cn_high := "HIGH"; cn_low := "Low";
     cn_close := "CLOSE"; cn_volume := "volume" |}.

(** The recased table without its volume column. *)
Definition ex_frame_recased_no_volume : Frame :=
  {| index := ex_index;
     cols := [("OPEN", [10; 11; 12]%float); ("high", [12; 12; 12]%float);
              ("lOW", [9; 9; 9]%float); ("cLoSe", [11; 11; 11]%float)] |}.

(** A figure after a call: the layout arguments applied and traces added at
    the end. *)
Definition rendered_into (lk : kwargs) (added : list (Trace * kwargs))
    (f : Figure) : Figure :=
  {| fig_subplots := fig_subplots f;
     fig_layout := plotly_update (fig_layout f) lk;
     fig_data := fig_data f ++ added |}.

(** ** What plotly is asked to accept *)

(** Whether plotly takes a trace into the figure found at a location. *)
Definition placed (fo : option Figure) (t : Trace) (kw : kwargs) : bool :=
  match fo with
  | Some f => accepts_placement P f t kw
  | None => true
  end.

(** Whether plotly builds the price trace of a call: the constructor takes
    the arguments of lines 143-160 and [update] the caller's [ohlc_kwargs]. *)
Definition price_built (settings : Settings) (df : Frame)
    (o h l c : Series) (name : value) (plot_obj : TraceClass)
    (ohlc_kwargs : option kwargs) : bool :=
  accepts_trace P plot_obj
    (ohlc_props (color_schema settings) (index df) o h l c name) &&
  accepts_update P
    (mk_trace plot_obj
       (ohlc_props (color_schema settings) (index df) o h l c name))
    (default ∅ ohlc_kwargs).

(** Whether plotly builds the volume bar: lines 171-181. *)
Definition bar_built (settings : Settings) (df : Frame)
    (o c v : Series) (volume_kwargs : option kwargs) : bool :=
  accepts_trace P Bar
    (volume_props (index df) v
       (marker_colors_of (color_schema settings) o c v)) &&
  accepts_update P
    (mk_trace Bar
       (volume_props (index df) v
          (marker_colors_of (color_schema settings) o c v)))
    (default ∅ volume_kwargs).

(** plotly accepts what a call hands to it up to line 162: the caller's
    layout arguments, the price trace, and its placement in the figure as it
    is by then. *)
Definition plotly_accepts_price (settings : Settings) (self : OHLCVDFAccessor)
    (pt : option PlotType) (dvo : option bool) (okw oak : option kwargs)
    (fig : option nat) (lk : kwargs) (st : store) : Prop :=
  let names := names_in_force settings self in
  let df := obj self in
  let dv := shows_volume settings self dvo in
  accepts_layout P lk = true /\
  forall io ih il ic name plot_obj,
    resolve df names open = Some io ->
    resolve df names high = Some ih ->
    resolve df names low = Some il ->
    resolve df names close = Some ic ->
    resolve_plot_type (default (ohlcv_plot_type settings) pt)
      = Return (name, plot_obj) ->
    price_built settings df (series_at df io) (series_at df ih)
      (series_at df il) (series_at df ic) name plot_obj okw = true /\
    placed (set_layout lk <$> figure_before fig dv st)
      (price_trace settings df (series_at df io) (series_at df ih)
         (series_at df il) (series_at df ic) name plot_obj okw)
      (placement dv 1 oak) = true.

(** plotly accepts the volume bar and its placement in the figure as it is
    at line 182. *)
Definition plotly_accepts_bar (settings : Settings) (self : OHLCVDFAccessor)
    (pt : option PlotType) (dvo : option bool) (okw vkw oak vak : option kwargs)
    (fig : option nat) (lk : kwargs) (st : store) : Prop :=
  let names := names_in_force settings self in
  let df := obj self in
  let dv := shows_volume settings self dvo in
  forall io ih il ic iv name plot_obj,
    resolve df names open = Some io ->
    resolve df names high = Some ih ->
    resolve df names low = Some il ->
    resolve df names close = Some ic ->
    resolve df names volume = Some iv ->
    resolve_plot_type (default (ohlcv_plot_type settings) pt)
      = Return (name, plot_obj) ->
    bar_built settings df (series_at df io) (series_at df ic)
      (series_at df iv) vkw = true /\
    placed (push_trace
              (price_trace settings df (series_at df io) (series_at df ih)
                 (series_at df il) (series_at df ic) name plot_obj okw)
              (placement dv 1 oak)
            <$> (set_layout lk <$> figure_before fig dv st))
      (volume_bar settings df (series_at df io) (series_at df ic)
         (series_at df iv) vkw)
      (placement dv 2 vak) = true.

(** plotly accepts all that a call hands to it. *)
Definition plotly_accepts (settings : Settings) (self : OHLCVDFAccessor)
    (pt : option PlotType) (dvo : option bool) (okw vkw oak vak : option kwargs)
    (fig : option nat) (lk : kwargs) (st : store) : Prop :=
  plotly_accepts_price settings self pt dvo okw oak fig lk st /\
  (shows_volume settings self dvo = true ->
   plotly_accepts_bar settings self pt dvo okw vkw oak vak fig lk st).

(** Whether a key of keyword arguments addresses a property: it names the
    property or a path into it ([marker_color], [marker.color]). *)
Definition addresses (key prop : string) : bool :=
  String.eqb key prop || String.prefix (prop +:+ "_") key
  || String.prefix (prop +:+ ".") key.

(** Keyword arguments that leave a property alone. *)
Definition untouched (kw : kwargs) (prop : string) : Prop :=
  forall key v, kw !! key = Some v -> addresses key prop = false.

(** * Properties *)

(** ** The recursive merge *)

Lemma merge_value_scalar_l b o :
  (forall bd, b ≠ VDict bd) -> merge_value b o = o.
Proof.
  intros Hb. destruct o; try reflexivity.
  destruct b; try reflexivity. exfalso. by eapply Hb.
Qed.

Lemma lookup_merge_kwargs bd od k :
  merge_kwargs bd od !! k =
    match od !! k with
    | Some ov => Some (merge_entry bd k ov)
    | None => bd !! k
    end.
Proof.
  unfold merge_kwargs.
  destruct (od !! k) as [ov|] eqn:Hk.
  - apply lookup_union_Some_l. rewrite map_lookup_imap, Hk. reflexivity.
  - rewrite lookup_union_r; [done|]. rewrite map_lookup_imap, Hk. reflexivity.
Qed.

Lemma merge_kwargs_empty_r bd : merge_kwargs bd ∅ = bd.
Proof.
  apply map_eq. intros k. rewrite lookup_merge_kwargs, lookup_empty. done.
Qed.

(** ** Strings *)

Lemma ascii_lower_idemp c : Str.ascii_lower (Str.ascii_lower c) = Str.ascii_lower c.
Proof. destruct c as [[] [] [] [] [] [] [] []]; reflexivity. Qed.

Lemma ascii_lower_upper c : Str.ascii_lower (Str.ascii_upper c) = Str.ascii_lower c.
Proof. destruct c as [[] [] [] [] [] [] [] []]; reflexivity. Qed.

Lemma lower_idemp s : Str.lower (Str.lower s) = Str.lower s.
Proof.
  induction s as [|c s IH]; simpl; [reflexivity|].
  by rewrite ascii_lower_idemp, IH.
Qed.

Lemma lower_upper s : Str.lower (Str.upper s) = Str.lower s.
Proof.
  induction s as [|c s IH]; simpl; [reflexivity|].
  by rewrite ascii_lower_upper, IH.
Qed.

(** ** [list.index] *)

Lemma list_index_Some x l i :
  list_index x l = Some i ->
  l !! i = Some x /\ forall j, j < i -> l !! j ≠ Some x.
Proof.
  revert i. induction l as [|y l IH]; intros i; simpl; [done|].
  destruct (decide (y = x)) as [->|Hne].
  - intros [= <-]. split; [done|]. intros j Hj. lia.
  - destruct (list_index x l) as [i'|] eqn:Hi; simpl; [|done].
    intros [= <-]. destruct (IH i' eq_refl) as [H1 H2]. split; [done|].
    intros [|j] Hj; simpl; [congruence|]. apply H2. lia.
Qed.

Lemma list_index_None x l : list_index x l = None <-> x ∉ l.
Proof.
  induction l as [|y l IH]; simpl.
  - split; [intros _; apply not_elem_of_nil|done].
  - destruct (decide (y = x)) as [->|Hne].
    + split; [done|]. intros []. left.
    + rewrite not_elem_of_cons. destruct (list_index x l); simpl.
      * split; [done|]. intros [_ H]. by apply IH in H.
      * split; [|done]. intros _. split; [congruence|]. by apply IH.
Qed.

Lemma list_index_is_Some x l : is_Some (list_index x l) <-> x ∈ l.
Proof.
  destruct (list_index x l) as [i|] eqn:Hi.
  - split; [|eauto]. intros _. apply list_index_Some in Hi as [Hi _].
    by eapply list_elem_of_lookup_2.
  - split; [by intros [? ?]|]. intros Hin. by apply list_index_None in Hi.
Qed.

Lemma contains_list_index x l : contains x l = true <-> is_Some (list_index x l).
Proof.
  unfold contains. rewrite bool_decide_eq_true. symmetry. apply list_index_is_Some.
Qed.

(** A resolved position is a position of the frame: [iloc] cannot fail. *)
Lemma resolve_series df names r i :
  resolve df names r = Some i ->
  exists label, cols df !! i = Some (label, series_at df i) /\
                Str.lower label = Str.lower (label_of names r).
Proof.
  unfold resolve, df_column_names, columns, series_at. intros Hi.
  apply list_index_Some in Hi as [Hi _].
  rewrite list_lookup_fmap, list_lookup_fmap in Hi.
  destruct (cols df !! i) as [[label s]|] eqn:Hc; simpl in *; [|done].
  exists label. split; [done|]. congruence.
Qed.

Lemma column_of_resolved df names r i st :
  resolve df names r = Some i ->
  column_of df (df_column_names df) (label_of names r) st
  = (st, Return (series_at df i)).
Proof.
  intros Hi. destruct (resolve_series _ _ _ _ Hi) as (label & Hc & _).
  unfold column_of, mbind, M_bind, bind, index_of.
  unfold resolve in Hi. rewrite Hi. simpl. unfold iloc. rewrite Hc. reflexivity.
Qed.

Lemma column_of_missing df names r st :
  resolve df names r = None ->
  column_of df (df_column_names df) (label_of names r) st
  = (st, Raise (MissingColumnError (Str.lower (label_of names r)))).
Proof.
  intros Hi. unfold column_of, mbind, M_bind, bind, index_of.
  unfold resolve in Hi. rewrite Hi. reflexivity.
Qed.

(** ** Running [plot] *)

Lemma alter_new_figure (g : Figure -> Figure) (st : store) f :
  alter g (length st) (st ++ [f]) = st ++ [g f].
Proof.
  rewrite alter_app_r_alt by lia. by rewrite Nat.sub_diag.
Qed.

Lemma setup_figure_new dv st :
  setup_figure None dv st = (st ++ [fresh_figure dv], Return (length st)).
Proof.
  unfold setup_figure, fresh_figure, mbind, M_bind, bind, mret, M_ret, ret.
  destruct dv; simpl;
    unfold update_layout;
    rewrite ?accepts_baseline, ?accepts_baseline_volume;
    unfold modify_figure; simpl;
    rewrite ?accepts_baseline_volume; simpl;
    by rewrite !alter_new_figure.
Qed.

Lemma setup_figure_given l dv st :
  setup_figure (Some l) dv st = (st, Return l).
Proof. reflexivity. Qed.

Lemma setup_figure_run fig dv st :
  setup_figure fig dv st
  = (store_after_setup fig dv st, Return (figure_loc fig st)).
Proof. destruct fig; [apply setup_figure_given|apply setup_figure_new]. Qed.

Lemma lookup_store_after_setup fig dv (st : store) :
  store_after_setup fig dv st !! figure_loc fig st = figure_before fig dv st.
Proof.
  destruct fig as [l|]; simpl; [done|].
  by rewrite list_lookup_middle.
Qed.

(** Every other figure of the store is left as it was. *)
Lemma lookup_store_after_setup_ne fig dv (st : store) g j :
  j ≠ figure_loc fig st -> j < length st ->
  alter g (figure_loc fig st) (store_after_setup fig dv st) !! j = st !! j.
Proof.
  intros Hne Hlt. rewrite list_lookup_alter_ne by done.
  destruct fig; simpl; [done|]. by rewrite lookup_app_l.
Qed.

Lemma alter_missing (g : Figure -> Figure) (st : store) i :
  st !! i = None -> alter g i st = st.
Proof.
  intros Hi. apply list_eq. intros j. rewrite list_lookup_alter.
  case_decide; [subst; by rewrite Hi|done].
Qed.

Lemma add_trace_run fig t kw (st : store) :
  add_trace fig t kw st =
    if placed (st !! fig) t kw
    then (alter (push_trace t kw) fig st, Return tt)
    else (st, Raise PlotlyError).
Proof.
  unfold add_trace, placed. destruct (st !! fig) eqn:Hf; [done|].
  by rewrite alter_missing.
Qed.

Lemma lookup_after_layout fig dv lk (st : store) :
  alter (set_layout lk) (figure_loc fig st) (store_after_setup fig dv st)
    !! figure_loc fig st
  = set_layout lk <$> figure_before fig dv st.
Proof. by rewrite list_lookup_alter_eq, lookup_store_after_setup. Qed.

(** When [display_volume] is not an explicit [True], a displayed volume has a
    column. *)
Lemma shows_volume_resolves settings self dvo :
  dvo ≠ Some true ->
  shows_volume settings self dvo = true ->
  is_Some (resolve (obj self) (names_in_force settings self) volume).
Proof.
  intros Hdvo. unfold shows_volume, resolve_display_volume.
  destruct dvo as [[]|]; [done|done|].
  intros Hc. by apply contains_list_index in Hc.
Qed.

(** [plot] when a required column is missing: the first missing role, in the
    order open, high, low, close, raises and the store is as it was. *)
Lemma plot_missing_required settings self pt dvo okw vkw oak vak fig lk st r :
  let names := names_in_force settings self in
  r ≠ volume ->
  resolve (obj self) names r = None ->
  exists r', r' ≠ volume /\ resolve (obj self) names r' = None /\
    plot settings self pt dvo okw vkw oak vak fig lk st
    = (st, Raise (MissingColumnError (Str.lower (label_of names r')))).
Proof.
  intros names Hr Hnone.
  assert (Hcases :
    forall r0, resolve (obj self) names r0 = None \/
               exists i, resolve (obj self) names r0 = Some i).
  { intros r0. destruct (resolve (obj self) names r0); eauto. }
  unfold plot. fold (names_in_force settings self). fold names.
  fold (df_column_names (obj self)).
  unfold mbind, M_bind, bind.
  destruct (Hcases open) as [Ho|[io Ho]].
  { exists open. split; [done|]. split; [done|].
    by rewrite (column_of_missing _ names open). }
  rewrite (column_of_resolved _ names open io) by done.
  destruct (Hcases high) as [Hh|[ih Hh]].
  { exists high. split; [done|]. split; [done|].
    by rewrite (column_of_missing _ names high). }
  rewrite (column_of_resolved _ names high ih) by done.
  destruct (Hcases low) as [Hl|[il Hl]].
  { exists low. split; [done|]. split; [done|].
    by rewrite (column_of_missing _ names low). }
  rewrite (column_of_resolved _ names low il) by done.
  destruct (Hcases close) as [Hc|[ic Hc]].
  { exists close. split; [done|]. split; [done|].
    by rewrite (column_of_missing _ names close). }
  destruct r; congruence.
Qed.

(** [plot] when the four required columns resolve. *)
Lemma plot_run settings self pt dvo okw vkw oak vak fig lk st io ih il ic :
  let names := names_in_force settings self in
  let df := obj self in
  let dv := shows_volume settings self dvo in
  let loc := figure_loc fig st in
  let st1 := store_after_setup fig dv st in
  let st2 := alter (set_layout lk) loc st1 in
  let f2 := set_layout lk <$> figure_before fig dv st in
  resolve df names open = Some io ->
  resolve df names high = Some ih ->
  resolve df names low = Some il ->
  resolve df names close = Some ic ->
  plot settings self pt dvo okw vkw oak vak fig lk st =
    if accepts_layout P lk then
      match resolve_plot_type (default (ohlcv_plot_type settings) pt) with
      | Raise e => (st2, Raise e)
      | Return (name, plot_obj) =>
          let price :=
            price_trace settings df (series_at df io) (series_at df ih)
              (series_at df il) (series_at df ic) name plot_obj okw in
          let p1 := placement dv 1 oak in
          if price_built settings df (series_at df io) (series_at df ih)
               (series_at df il) (series_at df ic) name plot_obj okw
             && placed f2 price p1
          then
            let st3 := alter (push_trace price p1) loc st2 in
            if dv then
              match resolve df names volume with
              | None =>
                  (st3,
                   Raise (MissingColumnError (Str.lower (cn_volume names))))
              | Some iv =>
                  let bar :=
                    volume_bar settings df (series_at df io)
                      (series_at df ic) (series_at df iv) vkw in
                  let p2 := placement dv 2 vak in
                  if bar_built settings df (series_at df io)
                       (series_at df ic) (series_at df iv) vkw
                     && placed (push_trace price p1 <$> f2) bar p2
                  then (alter (push_trace bar p2) loc st3, Return loc)
                  else (st3, Raise PlotlyError)
              end
            else (st3, Return loc)
          else (st2, Raise PlotlyError)
      end
    else (st1, Raise PlotlyError).
Proof.
  intros names df dv loc st1 st2 f2 Ho Hh Hl Hc.
  unfold plot. fold (names_in_force settings self). fold names.
  fold df. fold (df_column_names df).
  change (resolve_display_volume dvo names (df_column_names df)) with dv.
  unfold mbind, M_bind, bind.
  rewrite (column_of_resolved _ names open io) by done.
  rewrite (column_of_resolved _ names high ih) by done.
  rewrite (column_of_resolved _ names low il) by done.
  rewrite (column_of_resolved _ names close ic) by done.
  rewrite setup_figure_run. fold loc st1.
  unfold update_layout.
  destruct (accepts_layout P lk); [|reflexivity].
  unfold modify_figure, lift. fold st2.
  destruct (resolve_plot_type (default (ohlcv_plot_type settings) pt))
    as [[name plot_obj]|e]; [|reflexivity].
  cbv zeta. unfold price_built, construct, update_trace.
  destruct (accepts_trace P plot_obj _); [|reflexivity].
  cbn [andb]. unfold mret, M_ret, ret, raise.
  destruct (accepts_update P _ (default ∅ okw)); [|reflexivity].
  cbn [andb]. rewrite add_trace_run.
  assert (Hf2 : st2 !! loc = f2) by apply lookup_after_layout.
  rewrite Hf2.
  change (trace_update (mk_trace plot_obj _) (default ∅ okw))
    with (price_trace settings df (series_at df io) (series_at df ih)
            (series_at df il) (series_at df ic) name plot_obj okw).
  change (if dv
          then merge_dicts {["row" := VInt 1; "col" := VInt 1]} (default ∅ oak)
          else default ∅ oak)
    with (placement dv 1 oak).
  change (if dv
          then merge_dicts {["row" := VInt 2; "col" := VInt 1]} (default ∅ vak)
          else default ∅ vak)
    with (placement dv 2 vak).
  destruct (placed f2 _ (placement dv 1 oak)); [|reflexivity].
  destruct dv; [|reflexivity].
  destruct (resolve df names volume) as [iv|] eqn:Hv.
  2:{ rewrite (column_of_missing _ names volume) by done. reflexivity. }
  rewrite (column_of_resolved _ names volume iv) by done.
  unfold bar_built.
  destruct (accepts_trace P Bar _); [|reflexivity].
  cbn [andb].
  destruct (accepts_update P _ (default ∅ vkw)); [|reflexivity].
  cbn [andb]. rewrite add_trace_run.
  rewrite list_lookup_alter_eq, Hf2.
  change (trace_update (mk_trace Bar _) (default ∅ vkw))
    with (volume_bar settings df (series_at df io) (series_at df ic)
            (series_at df iv) vkw).
  by destruct (placed _ _ (placement true 2 vak)).
Qed.

(** With the four required roles resolved, rewrite a call by [plot_run]. *)
Ltac resolved_run Hres :=
  let io := fresh "io" in
  let ih := fresh "ih" in
  let il := fresh "il" in
  let ic := fresh "ic" in
  let Ho := fresh "Ho" in
  let Hh := fresh "Hh" in
  let Hl := fresh "Hl" in
  let Hc := fresh "Hc" in
  destruct (Hres open) as [io Ho]; [done|];
  destruct (Hres high) as [ih Hh]; [done|];
  destruct (Hres low) as [il Hl]; [done|];
  destruct (Hres close) as [ic Hc]; [done|];
  rewrite (plot_run _ _ _ _ _ _ _ _ _ _ _ io ih il ic Ho Hh Hl Hc);
  cbv zeta.

Lemma plot_returns_resolved settings self pt dvo okw vkw oak vak fig lk st st' l :
  plot settings self pt dvo okw vkw oak vak fig lk st = (st', Return l) ->
  forall r, r ≠ volume ->
    is_Some (resolve (obj self) (names_in_force settings self) r).
Proof.
  intros Hrun r Hr.
  destruct (resolve (obj self) (names_in_force settings self) r) eqn:Hres;
    [eauto|].
  destruct (plot_missing_required settings self pt dvo okw vkw oak vak fig lk
              st r Hr Hres) as (r' & _ & _ & Hraise).
  rewrite Hraise in Hrun. discriminate.
Qed.

Lemma plot_success settings self pt dvo okw vkw oak vak fig lk st st' l :
  let names := names_in_force settings self in
  let df := obj self in
  let dv := shows_volume settings self dvo in
  plot settings self pt dvo okw vkw oak vak fig lk st = (st', Return l) ->
  exists io ih il ic name plot_obj,
    resolve df names open = Some io /\
    resolve df names high = Some ih /\
    resolve df names low = Some il /\
    resolve df names close = Some ic /\
    resolve_plot_type (default (ohlcv_plot_type settings) pt)
      = Return (name, plot_obj) /\
    l = figure_loc fig st /\
    ((dv = false /\
      st' = alter (with_price settings self dv okw oak lk io ih il ic name plot_obj)
              l (store_after_setup fig dv st)) \/
     (dv = true /\ exists iv,
        resolve df names volume = Some iv /\
        st' = alter (with_volume settings self dv vkw vak io ic iv ∘
                     with_price settings self dv okw oak lk io ih il ic name plot_obj)
                l (store_after_setup fig dv st))).
Proof.
  intros names df dv Hrun.
  pose proof (plot_returns_resolved _ _ _ _ _ _ _ _ _ _ _ _ _ Hrun) as Hres.
  destruct (Hres open) as [io Ho]; [done|].
  destruct (Hres high) as [ih Hh]; [done|].
  destruct (Hres low) as [il Hl]; [done|].
  destruct (Hres close) as [ic Hc]; [done|].
  rewrite (plot_run settings self pt dvo okw vkw oak vak fig lk st io ih il ic
             Ho Hh Hl Hc) in Hrun.
  cbv zeta in Hrun. fold names df dv in Hrun, Ho, Hh, Hl, Hc |- *.
  destruct (accepts_layout P lk); [|discriminate].
  destruct (resolve_plot_type (default (ohlcv_plot_type settings) pt))
    as [[name plot_obj]|e]; [|discriminate].
  exists io, ih, il, ic, name, plot_obj.
  do 5 (split; [done|]).
  destruct (price_built _ _ _ _ _ _ _ _ _ && placed _ _ _); [|discriminate].
  destruct dv eqn:Hdv.
  - destruct (resolve df names volume) as [iv|]; [|discriminate].
    destruct (bar_built _ _ _ _ _ _ && placed _ _ _); [|discriminate].
    injection Hrun as <- <-. split; [done|]. right. split; [done|].
    exists iv. split; [done|].
    rewrite !list_alter_alter_eq. reflexivity.
  - injection Hrun as <- <-. split; [done|]. left. split; [done|].
    rewrite list_alter_alter_eq. reflexivity.
Qed.


(** With the columns resolved, the plot type fine and everything accepted by
    plotly, a call returns unless the displayed volume has no column. *)
Lemma plot_returns settings self pt dvo okw vkw oak vak fig lk st :
  (forall r, r ≠ volume ->
     is_Some (resolve (obj self) (names_in_force settings self) r)) ->
  valid_plot_type (default (ohlcv_plot_type settings) pt) ->
  (shows_volume settings self dvo = true ->
   is_Some (resolve (obj self) (names_in_force settings self) volume)) ->
  plotly_accepts settings self pt dvo okw vkw oak vak fig lk st ->
  (plot settings self pt dvo okw vkw oak vak fig lk st).2
  = Return (figure_loc fig st).
Proof.
  intros Hres Hvalid Hvol [[Hlayout Hprice] Hbar].
  destruct (Hres open) as [io Ho]; [done|].
  destruct (Hres high) as [ih Hh]; [done|].
  destruct (Hres low) as [il Hl]; [done|].
  destruct (Hres close) as [ic Hc]; [done|].
  rewrite (plot_run settings self pt dvo okw vkw oak vak fig lk st
             io ih il ic Ho Hh Hl Hc).
  cbv zeta. rewrite Hlayout.
  destruct (resolve_plot_type (default (ohlcv_plot_type settings) pt))
    as [[name plot_obj]|e] eqn:Hpt.
  2:{ destruct (default (ohlcv_plot_type settings) pt) as [s|c];
        simpl in *; [|done]. repeat case_decide; try done; tauto. }
  destruct (Hprice io ih il ic name plot_obj Ho Hh Hl Hc eq_refl) as [-> ->].
  cbn [andb].
  destruct (shows_volume settings self dvo) eqn:Hdv; [|done].
  destruct (Hvol eq_refl) as [iv Hv]. rewrite Hv.
  destruct (Hbar eq_refl io ih il ic iv name plot_obj Ho Hh Hl Hc Hv Hpt)
    as [Hb Hp].
  rewrite Hdv in Hp. by rewrite Hb, Hp.
Qed.

(** With the columns resolved, the plot type fine and the price trace
    accepted, a displayed volume without a column raises for the volume
    label. *)
Lemma plot_volume_missing settings self pt dvo okw vkw oak vak fig lk st :
  (forall r, r ≠ volume ->
     is_Some (resolve (obj self) (names_in_force settings self) r)) ->
  valid_plot_type (default (ohlcv_plot_type settings) pt) ->
  shows_volume settings self dvo = true ->
  resolve (obj self) (names_in_force settings self) volume = None ->
  plotly_accepts_price settings self pt dvo okw oak fig lk st ->
  (plot settings self pt dvo okw vkw oak vak fig lk st).2
  = Raise (MissingColumnError
             (Str.lower (cn_volume (names_in_force settings self)))).
Proof.
  intros Hres Hvalid Hdv Hv [Hlayout Hprice].
  destruct (Hres open) as [io Ho]; [done|].
  destruct (Hres high) as [ih Hh]; [done|].
  destruct (Hres low) as [il Hl]; [done|].
  destruct (Hres close) as [ic Hc]; [done|].
  rewrite (plot_run settings self pt dvo okw vkw oak vak fig lk st
             io ih il ic Ho Hh Hl Hc).
  cbv zeta. rewrite Hlayout.
  destruct (resolve_plot_type (default (ohlcv_plot_type settings) pt))
    as [[name plot_obj]|e] eqn:Hpt.
  2:{ destruct (default (ohlcv_plot_type settings) pt) as [s|c];
        simpl in *; [|done]. repeat case_decide; try done; tauto. }
  destruct (Hprice io ih il ic name plot_obj Ho Hh Hl Hc eq_refl) as [-> ->].
  cbn [andb]. by rewrite Hdv, Hv.
Qed.

(** The exceptions of a call whose required columns resolve and whose
    [display_volume] is not an explicit [True]. *)
Lemma plot_raises_without_volume_lookup
    settings self pt dvo okw vkw oak vak fig lk st e :
  (forall r, r ≠ volume ->
     is_Some (resolve (obj self) (names_in_force settings self) r)) ->
  dvo ≠ Some true ->
  (plot settings self pt dvo okw vkw oak vak fig lk st).2 = Raise e ->
  e = InvalidPlotTypeError \/ e = PlotlyError.
Proof.
  intros Hres Hdvo.
  destruct (Hres open) as [io Ho]; [done|].
  destruct (Hres high) as [ih Hh]; [done|].
  destruct (Hres low) as [il Hl]; [done|].
  destruct (Hres close) as [ic Hc]; [done|].
  rewrite (plot_run settings self pt dvo okw vkw oak vak fig lk st
             io ih il ic Ho Hh Hl Hc).
  cbv zeta.
  destruct (accepts_layout P lk); [|simpl; intros [= <-]; by right].
  destruct (resolve_plot_type (default (ohlcv_plot_type settings) pt))
    as [[name plot_obj]|e'] eqn:Hpt.
  - destruct (price_built _ _ _ _ _ _ _ _ _ && placed _ _ _);
      [|simpl; intros [= <-]; by right].
    destruct (shows_volume settings self dvo) eqn:Hdv; [|done].
    destruct (shows_volume_resolves settings self dvo Hdvo Hdv) as [iv Hv].
    rewrite Hv.
    destruct (bar_built _ _ _ _ _ _ && placed _ _ _);
      [done|simpl; intros [= <-]; by right].
  - simpl. intros [= <-]. left.
    destruct (default (ohlcv_plot_type settings) pt) as [s|c];
      simpl in Hpt; [|discriminate].
    repeat case_decide; congruence.
Qed.

(** ** Signs of float64 values and the marker colours *)

(** The three comparisons with zero that [plot] makes exclude one another
    (none holds for NaN). *)
Lemma float_sign_exclusive (d : float) :
  ((0 <? d)%float = true -> (d =? 0)%float = false /\ (d <? 0)%float = false) /\
  ((d =? 0)%float = true -> (d <? 0)%float = false).
Proof.
  rewrite !FloatAxioms.ltb_spec, !FloatAxioms.eqb_spec.
  change (Prim2SF 0) with (S754_zero false).
  destruct (Prim2SF d) as [s|s| |s m e]; try destruct s; cbn; done.
Qed.

Lemma lookup_mask_assign arr mask v i :
  mask_assign arr mask v !! i
  = (fun a => if default false (mask !! i) then v else a) <$> arr !! i.
Proof. unfold mask_assign. apply list_lookup_imap. Qed.

Lemma lookup_values_sub (a b : Series) i x y :
  a !! i = Some x -> b !! i = Some y ->
  values_sub a b !! i = Some (x - y)%float.
Proof.
  intros Ha Hb. unfold values_sub. rewrite lookup_zip_with, Ha, Hb. done.
Qed.

(** The colour of a row after the three assignments of lines 168-170: the
    last mask that holds decides. *)
Lemma marker_color_at cs (o c v : Series) i oi ci :
  o !! i = Some oi -> c !! i = Some ci -> i < length v ->
  marker_colors_of cs o c v !! i =
    Some (let d := (ci - oi)%float in
          if (d <? 0)%float then decreasing cs
          else if (d =? 0)%float then gray cs
          else if (0 <? d)%float then increasing cs
          else VNone).
Proof.
  intros Ho Hc Hlt. unfold marker_colors_of.
  rewrite !lookup_mask_assign, !list_lookup_fmap.
  rewrite (lookup_values_sub c o i ci oi Hc Ho).
  rewrite lookup_replicate_2 by done. simpl.
  destruct (ci - oi <? 0)%float; [done|].
  destruct (ci - oi =? 0)%float; done.
Qed.

(** ** Column resolution *)

Lemma caseless_columns (ls ls' : list string) :
  Forall2 Str.caseless_eq ls' ls -> map Str.lower ls' = map Str.lower ls.
Proof.
  induction 1 as [|x y l l' Hxy _ IH]; simpl; [done|].
  unfold Str.caseless_eq in Hxy. by rewrite Hxy, IH.
Qed.

Lemma resolve_None df names r :
  resolve df names r = None <->
  forall label, label ∈ columns df ->
    ¬ Str.caseless_eq label (label_of names r).
Proof.
  unfold resolve, df_column_names. rewrite list_index_None.
  rewrite list_elem_of_fmap. unfold Str.caseless_eq. split.
  - intros Hno label Hin Heq. apply Hno. exists label. split; [done|done].
  - intros Hno (label & Heq & Hin). by apply (Hno label).
Qed.

Lemma resolve_first df names r i :
  resolve df names r = Some i ->
  (exists label, columns df !! i = Some label /\
                 Str.caseless_eq label (label_of names r)) /\
  (forall j label, j < i -> columns df !! j = Some label ->
                   ¬ Str.caseless_eq label (label_of names r)).
Proof.
  intros Hi. split.
  - destruct (resolve_series _ _ _ _ Hi) as (label & Hc & Hl).
    exists label. split; [|done].
    unfold columns. by rewrite list_lookup_fmap, Hc.
  - intros j label Hj Hlab Heq.
    unfold resolve, df_column_names in Hi.
    apply list_index_Some in Hi as [_ Hfirst].
    apply (Hfirst j Hj). rewrite list_lookup_fmap, Hlab. simpl.
    by rewrite Heq.
Qed.

(** C1 (amended). Column resolution is case-insensitive and total on
    success: a role resolves to the position of a column whose label equals
    the mapped label up to case, the same position for every casing of the
    mapped label and of the table's labels, upper and lower case among them;
    when [plot] returns, the four required roles have resolved; when a
    required role has no match up to case, [plot] raises the missing-column
    error and leaves the store as it was. Absence of the volume label alone
    does not raise as long as [display_volume] is not an explicit [True]:
    with the four required roles resolved the missing-column error is never
    raised, and the call returns when the plot type is valid and plotly
    accepts what it is handed. With an explicit [True] the volume column is
    looked up and must exist: without it the call cannot return, and raises
    the missing-column error for the volume label once the plot type and
    the price trace have passed. *)
Theorem column_resolution settings self pt dvo okw vkw oak vak fig lk st :
  let names := names_in_force settings self in
  let df := obj self in
  let run := plot settings self pt dvo okw vkw oak vak fig lk st in
  (forall r i, resolve df names r = Some i ->
     exists label, columns df !! i = Some label /\
                   Str.caseless_eq label (label_of names r)) /\
  (forall names' df' r,
     Str.caseless_eq (label_of names' r) (label_of names r) ->
     Forall2 Str.caseless_eq (columns df') (columns df) ->
     resolve df' names' r = resolve df names r) /\
  (forall names' r,
     label_of names' r = Str.upper (label_of names r) \/
     label_of names' r = Str.lower (label_of names r) ->
     resolve df names' r = resolve df names r) /\
  (forall l, run.2 = Return l ->
     forall r, r ≠ volume -> is_Some (resolve df names r)) /\
  (forall r, r ≠ volume ->
     (forall label, label ∈ columns df ->
        ¬ Str.caseless_eq label (label_of names r)) ->
     exists label, run = (st, Raise (MissingColumnError label))) /\
  ((forall r, r ≠ volume -> is_Some (resolve df names r)) ->
   dvo ≠ Some true ->
   (forall e, run.2 = Raise e -> e = InvalidPlotTypeError \/ e = PlotlyError) /\
   (valid_plot_type (default (ohlcv_plot_type settings) pt) ->
    plotly_accepts settings self pt dvo okw vkw oak vak fig lk st ->
    run.2 = Return (figure_loc fig st))) /\
  ((forall r, r ≠ volume -> is_Some (resolve df names r)) ->
   dvo = Some true ->
   resolve df names volume = None ->
   (forall l, run.2 ≠ Return l) /\
   (valid_plot_type (default (ohlcv_plot_type settings) pt) ->
    plotly_accepts_price settings self pt dvo okw oak fig lk st ->
    run.2 = Raise (MissingColumnError (Str.lower (cn_volume names))))).
Proof.
  intros names df run. split; [|split; [|split; [|split; [|split; [|split]]]]].
  - intros r i Hi. by apply resolve_first in Hi as [Hi _].
  - intros names' df' r Hlab Hcols. unfold resolve, df_column_names.
    unfold Str.caseless_eq in Hlab. rewrite Hlab.
    by rewrite (caseless_columns _ _ Hcols).
  - intros names' r Hlab. unfold resolve.
    destruct Hlab as [-> | ->]; by rewrite ?lower_upper, ?lower_idemp.
  - intros l Hl r Hr. subst run.
    destruct (plot settings self pt dvo okw vkw oak vak fig lk st)
      as [st' res] eqn:Hrun.
    simpl in Hl. subst res.
    by eapply plot_returns_resolved.
  - intros r Hr Hno. apply resolve_None in Hno.
    destruct (plot_missing_required settings self pt dvo okw vkw oak vak fig
                lk st r Hr Hno) as (r' & _ & _ & Hraise).
    eauto.
  - intros Hres Hdvo. split.
    + intros e. by apply plot_raises_without_volume_lookup.
    + intros Hvalid Haccepts. apply plot_returns; [done|done| |done].
      intros Hdv. by apply (shows_volume_resolves settings self dvo).
  - intros Hres -> Hv. split.
    + intros l Hl. subst run.
      destruct (plot settings self pt (Some true) okw vkw oak vak fig lk st)
        as [st' res] eqn:Hrun.
      simpl in Hl. subst res.
      destruct (plot_success _ _ _ _ _ _ _ _ _ _ _ _ _ Hrun)
        as (io & ih & il & ic & name & plot_obj & _ & _ & _ & _ & _ & _
            & [[Hdv _]|[_ (iv & Hiv & _)]]).
      * discriminate.
      * fold names df in Hv. unfold names, df in Hv. congruence.
    + intros Hvalid Haccepts. by apply plot_volume_missing.
Qed.

(** ** The figure after a successful call *)

Lemma plot_success_figure settings self pt dvo okw vkw oak vak fig lk st st' l f0 :
  let names := names_in_force settings self in
  let df := obj self in
  let dv := shows_volume settings self dvo in
  plot settings self pt dvo okw vkw oak vak fig lk st = (st', Return l) ->
  figure_before fig dv st = Some f0 ->
  exists io ih il ic name plot_obj f,
    resolve df names open = Some io /\
    resolve df names high = Some ih /\
    resolve df names low = Some il /\
    resolve df names close = Some ic /\
    resolve_plot_type (default (ohlcv_plot_type settings) pt)
      = Return (name, plot_obj) /\
    (dv = true -> is_Some (resolve df names volume)) /\
    l = figure_loc fig st /\
    st' !! l = Some f /\
    fig_subplots f = fig_subplots f0 /\
    fig_layout f = plotly_update (fig_layout f0) lk /\
    fig_data f = fig_data f0 ++
                 traces_added settings self dvo okw vkw oak vak
                   io ih il ic name plot_obj.
Proof.
  intros names df dv Hrun Hbefore.
  destruct (plot_success _ _ _ _ _ _ _ _ _ _ _ _ _ Hrun)
    as (io & ih & il & ic & name & plot_obj & Ho & Hh & Hl & Hc & Hpt & Hloc
        & Hst).
  fold names df dv in Ho, Hh, Hl, Hc, Hst.
  exists io, ih, il, ic, name, plot_obj.
  unfold traces_added. fold names df dv.
  destruct Hst as [[Hdv Hst]|[Hdv (iv & Hv & Hst)]]; rewrite Hdv in *.
  - eexists. do 5 (split; [done|]). split; [done|]. split; [done|].
    split.
    { rewrite Hst, Hloc, list_lookup_alter_eq, lookup_store_after_setup.
      rewrite Hbefore. reflexivity. }
    repeat split; simpl; rewrite <- ?app_assoc; done.
  - eexists. do 5 (split; [done|]). split; [eauto|]. split; [done|].
    split.
    { rewrite Hst, Hloc, list_lookup_alter_eq, lookup_store_after_setup.
      rewrite Hbefore. reflexivity. }
    rewrite Hv. repeat split; simpl; rewrite <- ?app_assoc; done.
Qed.

(** ** Volume visibility *)

Lemma panels_fresh_figure dv : panels (fresh_figure dv) = if dv then 2 else 1.
Proof. by destruct dv. Qed.

(** C2. An explicit [display_volume] is honoured as it is; when it is unset,
    the volume is displayed exactly when some column label equals the mapped
    volume label up to case. What [plot] then does follows this decision: a
    successful call adds the volume bar after the price trace exactly when
    the volume is displayed, and a figure it created has two panels then and
    one otherwise. *)
Theorem volume_visibility settings self dvo :
  let names := names_in_force settings self in
  let df := obj self in
  let dv := shows_volume settings self dvo in
  (forall b, dvo = Some b -> dv = b) /\
  (dvo = None ->
     (dv = true <->
      exists label, label ∈ columns df /\
                    Str.caseless_eq label (cn_volume names))) /\
  (forall pt okw vkw oak vak fig lk st st' l f0,
     plot settings self pt dvo okw vkw oak vak fig lk st = (st', Return l) ->
     figure_before fig dv st = Some f0 ->
     exists f,
       st' !! l = Some f /\
       length (fig_data f) = length (fig_data f0) + (if dv then 2 else 1) /\
       (fig = None -> panels f = if dv then 2 else 1)).
Proof.
  intros names df dv. split; [|split].
  - intros b ->. reflexivity.
  - intros ->. subst dv. unfold shows_volume, resolve_display_volume, contains.
    rewrite bool_decide_eq_true. unfold df_column_names.
    rewrite list_elem_of_fmap. fold names df. unfold Str.caseless_eq.
    split; intros (label & H1 & H2); exists label; done.
  - intros pt okw vkw oak vak fig lk st st' l f0 Hrun Hbefore.
    destruct (plot_success_figure _ _ _ _ _ _ _ _ _ _ _ _ _ _ Hrun Hbefore)
      as (io & ih & il & ic & name & plot_obj & f & _ & _ & _ & _ & _ & Hvol
          & _ & Hf & Hsub & _ & Hdata).
    exists f. split; [done|]. split.
    + rewrite Hdata, length_app. unfold traces_added. fold names df dv.
      fold names df dv in Hvol.
      destruct dv; simpl; [|done].
      by destruct Hvol as [iv ->].
    + intros ->. simpl in Hbefore. injection Hbefore as <-.
      unfold panels. rewrite Hsub. apply panels_fresh_figure.
Qed.

(** ** First match *)

(** C10. When several columns match a role's label up to case, the role
    resolves to the first of them in column order: the resolved position
    holds a match and no earlier position does. This is so for each of the
    five roles, volume included, and a role resolves whenever some column
    matches. The traces of a successful call are built from the cells at the
    resolved positions. *)
Theorem first_match_resolution settings self :
  let names := names_in_force settings self in
  let df := obj self in
  (forall r i, resolve df names r = Some i ->
     (exists label, columns df !! i = Some label /\
                    Str.caseless_eq label (label_of names r)) /\
     (forall j label, j < i -> columns df !! j = Some label ->
                      ¬ Str.caseless_eq label (label_of names r))) /\
  (forall r label, label ∈ columns df ->
     Str.caseless_eq label (label_of names r) ->
     is_Some (resolve df names r)) /\
  (forall pt dvo okw vkw oak vak fig lk st st' l f0,
     plot settings self pt dvo okw vkw oak vak fig lk st = (st', Return l) ->
     figure_before fig (shows_volume settings self dvo) st = Some f0 ->
     exists io ih il ic name plot_obj f,
       resolve df names open = Some io /\
       resolve df names high = Some ih /\
       resolve df names low = Some il /\
       resolve df names close = Some ic /\
       st' !! l = Some f /\
       fig_data f = fig_data f0 ++
                    traces_added settings self dvo okw vkw oak vak
                      io ih il ic name plot_obj).
Proof.
  intros names df. split; [|split].
  - intros r i Hi. by apply resolve_first.
  - intros r label Hin Heq.
    destruct (resolve df names r) eqn:Hres; [eauto|].
    exfalso. by eapply resolve_None.
  - intros pt dvo okw vkw oak vak fig lk st st' l f0 Hrun Hbefore.
    destruct (plot_success_figure _ _ _ _ _ _ _ _ _ _ _ _ _ _ Hrun Hbefore)
      as (io & ih & il & ic & name & plot_obj & f & Ho & Hh & Hl & Hc & _ & _
          & _ & Hf & _ & _ & Hdata).
    by exists io, ih, il, ic, name, plot_obj, f.
Qed.

(** ** Plot type *)

Lemma ohlc_props_name cs x o h l c name :
  ohlc_props cs x o h l c name !! "name" = Some name.
Proof. reflexivity. Qed.

Lemma price_trace_class settings df o h l c name plot_obj okw :
  trace_class (price_trace settings df o h l c name plot_obj okw) = plot_obj.
Proof. reflexivity. Qed.

(** The name of the price trace: the one [plot] passes to the constructor,
    unless the caller's [ohlc_kwargs] give one. *)
Lemma price_trace_name settings df o h l c name plot_obj okw :
  default ∅ okw !! "name" = None ->
  trace_props (price_trace settings df o h l c name plot_obj okw) !! "name"
  = Some name.
Proof.
  intros Hno. unfold price_trace, trace_update, plotly_update. simpl.
  rewrite lookup_merge_kwargs, Hno. apply ohlc_props_name.
Qed.

(** A call that raises before line 143 has built no trace: no figure of the
    store has gained one. *)
Lemma traces_kept_after_setup fig dv (st : store) j f :
  store_after_setup fig dv st !! j = Some f ->
  fig_data f = match st !! j with Some f0 => fig_data f0 | None => [] end.
Proof.
  destruct fig as [l|]; simpl.
  - by intros ->.
  - intros Hj. destruct (decide (j < length st)) as [Hlt|Hge].
    + rewrite lookup_app_l in Hj by done. by rewrite Hj.
    + rewrite lookup_ge_None_2 by lia.
      rewrite lookup_app_r in Hj by lia.
      destruct (j - length st) as [|n]; simpl in Hj; [|done].
      injection Hj as <-. by destruct dv.
Qed.

Lemma traces_kept_after_layout fig dv lk (st : store) j f :
  alter (set_layout lk) (figure_loc fig st) (store_after_setup fig dv st) !! j
    = Some f ->
  fig_data f = match st !! j with Some f0 => fig_data f0 | None => [] end.
Proof.
  rewrite list_lookup_alter. case_decide as Hj.
  - subst j.
    destruct (store_after_setup fig dv st !! figure_loc fig st) as [f1|] eqn:Hf1;
      simpl; [|done].
    intros [= <-]. simpl. by eapply traces_kept_after_setup.
  - apply traces_kept_after_setup.
Qed.

(** C4 (amended). A string plot type is matched in lower case against "ohlc"
    and "candlestick", so that every casing of the two names, the upper-case
    and lower-case spellings of a string among them, resolves as the string
    itself: a match selects the built-in trace class and the name "OHLC" or
    "Candlestick", which a successful call gives to the price trace it adds;
    any other string makes the call raise, and no figure of the store has
    gained a trace when it does. The exception is the invalid-plot-type one
    provided the four required columns resolve and plotly accepts the
    caller's layout arguments: both are dealt with before the plot type and
    raise their own exception otherwise. *)
Theorem plot_type_resolution settings self pt dvo okw vkw oak vak fig lk st s :
  let names := names_in_force settings self in
  let df := obj self in
  let run := plot settings self pt dvo okw vkw oak vak fig lk st in
  default (ohlcv_plot_type settings) pt = PTStr s ->
  (Str.lower s = "ohlc" ->
     resolve_plot_type (PTStr s) = Return (VStr "OHLC", Ohlc)) /\
  (Str.lower s = "candlestick" ->
     resolve_plot_type (PTStr s) = Return (VStr "Candlestick", Candlestick)) /\
  (resolve_plot_type (PTStr (Str.upper s)) = resolve_plot_type (PTStr s) /\
   resolve_plot_type (PTStr (Str.lower s)) = resolve_plot_type (PTStr s)) /\
  (forall l f0,
     run.2 = Return l ->
     figure_before fig (shows_volume settings self dvo) st = Some f0 ->
     exists name plot_obj f tr pl,
       resolve_plot_type (PTStr s) = Return (VStr name, plot_obj) /\
       run.1 !! l = Some f /\
       fig_data f !! length (fig_data f0) = Some (tr, pl) /\
       trace_class tr = plot_obj /\
       (default ∅ okw !! "name" = None ->
        trace_props tr !! "name" = Some (VStr name))) /\
  (Str.lower s ≠ "ohlc" -> Str.lower s ≠ "candlestick" ->
     resolve_plot_type (PTStr s) = Raise InvalidPlotTypeError /\
     (exists e, run.2 = Raise e) /\
     ((forall r, r ≠ volume -> is_Some (resolve df names r)) ->
      accepts_layout P lk = true ->
      run.2 = Raise InvalidPlotTypeError) /\
     (forall j f, run.1 !! j = Some f ->
        fig_data f = match st !! j with
                     | Some f0 => fig_data f0
                     | None => []
                     end)).
Proof.
  intros names df run Hpt. split; [|split; [|split; [|split]]].
  - intros Hs. unfold resolve_plot_type. by rewrite decide_True.
  - intros Hs. unfold resolve_plot_type.
    rewrite decide_False by (rewrite Hs; discriminate).
    by rewrite decide_True.
  - unfold resolve_plot_type. by rewrite lower_upper, lower_idemp.
  - intros l f0 Hret Hbefore. subst run.
    destruct (plot settings self pt dvo okw vkw oak vak fig lk st)
      as [st' res] eqn:Hrun.
    simpl in Hret. subst res.
    destruct (plot_success_figure _ _ _ _ _ _ _ _ _ _ _ _ _ _ Hrun Hbefore)
      as (io & ih & il & ic & name & plot_obj & f & _ & _ & _ & _ & Hres & _
          & _ & Hf & _ & _ & Hdata).
    rewrite Hpt in Hres.
    assert (exists n, name = VStr n) as [n ->].
    { unfold resolve_plot_type in Hres.
      repeat case_decide; simplify_eq; eauto. }
    exists n, plot_obj, f. eexists _, _.
    split; [done|]. split; [done|]. split.
    { rewrite Hdata. unfold traces_added.
      by rewrite list_lookup_middle. }
    split; [apply price_trace_class|]. apply price_trace_name.
  - intros Hn1 Hn2.
    assert (Hraise : resolve_plot_type (PTStr s) = Raise InvalidPlotTypeError).
    { unfold resolve_plot_type. by rewrite !decide_False. }
    split; [done|].
    assert (Hcases :
      (exists e, run = (st, Raise e)) \/
      (forall r, r ≠ volume -> is_Some (resolve df names r))).
    { destruct (resolve df names open) as [io|] eqn:Ho.
      2:{ left. destruct (plot_missing_required settings self pt dvo okw vkw
                            oak vak fig lk st open ltac:(done) Ho)
            as (r' & _ & _ & H). eauto. }
      destruct (resolve df names high) as [ih|] eqn:Hh.
      2:{ left. destruct (plot_missing_required settings self pt dvo okw vkw
                            oak vak fig lk st high ltac:(done) Hh)
            as (r' & _ & _ & H). eauto. }
      destruct (resolve df names low) as [il|] eqn:Hl.
      2:{ left. destruct (plot_missing_required settings self pt dvo okw vkw
                            oak vak fig lk st low ltac:(done) Hl)
            as (r' & _ & _ & H). eauto. }
      destruct (resolve df names close) as [ic|] eqn:Hc.
      2:{ left. destruct (plot_missing_required settings self pt dvo okw vkw
                            oak vak fig lk st close ltac:(done) Hc)
            as (r' & _ & _ & H). eauto. }
      right. intros [] ?; eauto; done. }
    assert (Hrun :
      (forall r, r ≠ volume -> is_Some (resolve df names r)) ->
      run =
        if accepts_layout P lk
        then (alter (set_layout lk) (figure_loc fig st)
                (store_after_setup fig (shows_volume settings self dvo) st),
              Raise InvalidPlotTypeError)
        else (store_after_setup fig (shows_volume settings self dvo) st,
              Raise PlotlyError)).
    { intros Hres. subst run.
      destruct (Hres open) as [io Ho]; [done|].
      destruct (Hres high) as [ih Hh]; [done|].
      destruct (Hres low) as [il Hl]; [done|].
      destruct (Hres close) as [ic Hc]; [done|].
      rewrite (plot_run settings self pt dvo okw vkw oak vak fig lk st
                 io ih il ic Ho Hh Hl Hc).
      cbv zeta. by rewrite Hpt, Hraise. }
    split; [|split].
    + destruct Hcases as [[e ->]|Hres]; [eauto|].
      rewrite (Hrun Hres). destruct (accepts_layout P lk); eauto.
    + intros Hres Hlayout. by rewrite (Hrun Hres), Hlayout.
    + destruct Hcases as [[e ->]|Hres].
      * simpl. by intros j f ->.
      * rewrite (Hrun Hres). destruct (accepts_layout P lk); simpl; intros j f.
        -- apply traces_kept_after_layout.
        -- apply traces_kept_after_setup.
Qed.

(** A trace class given as plot type is the constructor [plot] calls, and
    line 149 passes that class itself as the name. *)
Lemma custom_plot_type_name settings df o h l c cls okw :
  resolve_plot_type (PTClass cls) = Return (VClass cls, cls) /\
  trace_class (price_trace settings df o h l c (VClass cls) cls okw) = cls /\
  (default ∅ okw !! "name" = None ->
   trace_props (price_trace settings df o h l c (VClass cls) cls okw) !! "name"
   = Some (VClass cls)).
Proof.
  split; [reflexivity|]. split; [reflexivity|]. apply price_trace_name.
Qed.

(** ** The volume bar *)

Lemma volume_props_lookup x v colors :
  volume_props x v colors !! "name" = Some (VStr "Volume") /\
  volume_props x v colors !! "opacity" = Some (VFloat 0.5%float) /\
  volume_props x v colors !! "marker"
    = Some (VDict {[ "color" := VArray colors; "line_width" := VInt 0 ]}) /\
  volume_props x v colors !! "x" = Some (VArray x) /\
  volume_props x v colors !! "y" = Some (VSeries v).
Proof. repeat split; reflexivity. Qed.

(** The properties of a trace that the caller's keyword arguments do not
    mention are those it was built with. *)
Lemma trace_update_untouched cls props kw k :
  kw !! k = None ->
  trace_props (trace_update (mk_trace cls props) kw) !! k = props !! k.
Proof.
  intros Hno. unfold trace_update, plotly_update. simpl.
  by rewrite lookup_merge_kwargs, Hno.
Qed.

(** C3. For any colour schema and any row, with delta = close - open in
    float64: the bar's colour is the increasing colour when delta > 0, the
    gray one when delta == 0 and the decreasing one when delta < 0. The bar
    is built with the name "Volume", marker line width 0 and opacity 0.5, the
    colours as marker colour, the index as x and the volume cells as y. A
    successful call that displays the volume adds this bar, a [Bar] trace,
    after the price trace, updated with the caller's [volume_kwargs]: what
    those do not mention is as built. *)
Theorem volume_bar_colouring settings self :
  let names := names_in_force settings self in
  let df := obj self in
  (forall cs (o c v : Series) i oi ci,
     o !! i = Some oi -> c !! i = Some ci -> i < length v ->
     let delta := (ci - oi)%float in
     ((0 <? delta)%float = true ->
      marker_colors_of cs o c v !! i = Some (increasing cs)) /\
     ((delta =? 0)%float = true ->
      marker_colors_of cs o c v !! i = Some (gray cs)) /\
     ((delta <? 0)%float = true ->
      marker_colors_of cs o c v !! i = Some (decreasing cs))) /\
  (forall x v colors,
     volume_props x v colors !! "name" = Some (VStr "Volume") /\
     volume_props x v colors !! "opacity" = Some (VFloat 0.5%float) /\
     volume_props x v colors !! "marker"
       = Some (VDict {[ "color" := VArray colors; "line_width" := VInt 0 ]}) /\
     volume_props x v colors !! "x" = Some (VArray x) /\
     volume_props x v colors !! "y" = Some (VSeries v)) /\
  (forall pt dvo okw vkw oak vak fig lk st st' l f0,
     plot settings self pt dvo okw vkw oak vak fig lk st = (st', Return l) ->
     figure_before fig (shows_volume settings self dvo) st = Some f0 ->
     shows_volume settings self dvo = true ->
     exists io ic iv f bar pl,
       resolve df names open = Some io /\
       resolve df names close = Some ic /\
       resolve df names volume = Some iv /\
       st' !! l = Some f /\
       fig_data f !! S (length (fig_data f0)) = Some (bar, pl) /\
       length (fig_data f) = S (S (length (fig_data f0))) /\
       trace_class bar = Bar /\
       let built :=
         volume_props (index df) (series_at df iv)
           (marker_colors_of (color_schema settings)
              (series_at df io) (series_at df ic) (series_at df iv)) in
       bar = trace_update (mk_trace Bar built) (default ∅ vkw) /\
       (forall k, default ∅ vkw !! k = None ->
                  trace_props bar !! k = built !! k)).
Proof.
  intros names df. split; [|split].
  - intros cs o c v i oi ci Ho Hc Hlt delta.
    rewrite (marker_color_at cs o c v i oi ci Ho Hc Hlt). cbv zeta. fold delta.
    destruct (float_sign_exclusive delta) as [Hpos Hzero].
    repeat split.
    + intros Hd. destruct (Hpos Hd) as [-> ->]. by rewrite Hd.
    + intros Hd. by rewrite (Hzero Hd), Hd.
    + by intros ->.
  - apply volume_props_lookup.
  - intros pt dvo okw vkw oak vak fig lk st st' l f0 Hrun Hbefore Hdv.
    destruct (plot_success_figure _ _ _ _ _ _ _ _ _ _ _ _ _ _ Hrun Hbefore)
      as (io & ih & il & ic & name & plot_obj & f & Ho & _ & _ & Hc & _ & Hvol
          & _ & Hf & _ & _ & Hdata).
    destruct (Hvol Hdv) as [iv Hv].
    unfold traces_added in Hdata. rewrite Hdv, Hv in Hdata.
    exists io, ic, iv, f. eexists _, _.
    split; [done|]. split; [done|]. split; [done|]. split; [done|].
    split.
    { rewrite Hdata. rewrite lookup_app_r by lia.
      replace (S (length (fig_data f0)) - length (fig_data f0)) with 1 by lia.
      reflexivity. }
    split. { rewrite Hdata, length_app. simpl. lia. }
    split; [reflexivity|]. split; [reflexivity|].
    intros k Hk. unfold volume_bar. by apply trace_update_untouched.
Qed.

(** ** Panels of a new figure *)

Lemma panel_allocation_subplots dv f :
  fig_subplots f = fig_subplots (fresh_figure dv) -> panel_allocation dv f.
Proof.
  unfold panel_allocation, panels, panel_heights. intros ->. by destruct dv.
Qed.

Lemma plot_new_store settings self pt dvo okw vkw oak vak lk st io ih il ic :
  let names := names_in_force settings self in
  let df := obj self in
  resolve df names open = Some io ->
  resolve df names high = Some ih ->
  resolve df names low = Some il ->
  resolve df names close = Some ic ->
  exists f,
    (plot settings self pt dvo okw vkw oak vak None lk st).1 = st ++ [f] /\
    fig_subplots f = fig_subplots (fresh_figure (shows_volume settings self dvo)).
Proof.
  intros names df Ho Hh Hl Hc.
  rewrite (plot_run settings self pt dvo okw vkw oak vak None lk st
             io ih il ic Ho Hh Hl Hc).
  cbv zeta. cbn [store_after_setup figure_loc].
  destruct (accepts_layout P lk); [|eexists; split; reflexivity].
  destruct (resolve_plot_type (default (ohlcv_plot_type settings) pt))
    as [[name plot_obj]|e].
  2:{ cbn [fst]. rewrite alter_new_figure. eexists; split; reflexivity. }
  destruct (price_built _ _ _ _ _ _ _ _ _ && placed _ _ _).
  2:{ cbn [fst]. rewrite alter_new_figure. eexists; split; reflexivity. }
  destruct (shows_volume settings self dvo).
  2:{ cbn [fst]. rewrite !alter_new_figure. eexists; split; reflexivity. }
  destruct (resolve (obj self) (names_in_force settings self) volume).
  2:{ cbn [fst]. rewrite !alter_new_figure. eexists; split; reflexivity. }
  destruct (bar_built _ _ _ _ _ _ && placed _ _ _);
    cbn [fst]; rewrite !alter_new_figure; eexists; split; reflexivity.
Qed.

(** C6. A call without a figure of the caller's creates exactly one figure.
    When the volume is hidden it has one panel of full height; when the
    volume is shown it has two stacked panels that share the x axis, with
    heights 0.7 and 0.3 and vertical spacing 0. A call that returns hands
    back this new figure; a call that raises has created it or has left the
    store as it was. *)
Theorem fresh_figure_panels settings self pt dvo okw vkw oak vak lk st :
  let dv := shows_volume settings self dvo in
  let run := plot settings self pt dvo okw vkw oak vak None lk st in
  (forall l, run.2 = Return l ->
     l = length st /\
     exists f, run.1 = st ++ [f] /\ run.1 !! l = Some f /\
               panel_allocation dv f) /\
  (run.1 = st \/ exists f, run.1 = st ++ [f] /\ panel_allocation dv f).
Proof.
  intros dv run. split.
  - intros l Hret. subst run.
    destruct (plot settings self pt dvo okw vkw oak vak None lk st)
      as [st' res] eqn:Hrun.
    simpl in Hret. subst res.
    destruct (plot_success _ _ _ _ _ _ _ _ _ _ _ _ _ Hrun)
      as (io & ih & il & ic & _ & _ & Ho & Hh & Hl & Hc & _ & Hloc & _).
    simpl in Hloc. split; [done|].
    destruct (plot_new_store settings self pt dvo okw vkw oak vak lk st
                io ih il ic Ho Hh Hl Hc) as (f & Hst & Hsub).
    rewrite Hrun in Hst. simpl in *. exists f. split; [done|].
    split; [subst; apply list_lookup_middle; done|].
    by apply panel_allocation_subplots.
  - destruct (resolve (obj self) (names_in_force settings self) open)
      as [io|] eqn:Ho.
    2:{ left. destruct (plot_missing_required settings self pt dvo okw vkw
                          oak vak None lk st open ltac:(done) Ho)
          as (r' & _ & _ & H). subst run. by rewrite H. }
    destruct (resolve (obj self) (names_in_force settings self) high)
      as [ih|] eqn:Hh.
    2:{ left. destruct (plot_missing_required settings self pt dvo okw vkw
                          oak vak None lk st high ltac:(done) Hh)
          as (r' & _ & _ & H). subst run. by rewrite H. }
    destruct (resolve (obj self) (names_in_force settings self) low)
      as [il|] eqn:Hl.
    2:{ left. destruct (plot_missing_required settings self pt dvo okw vkw
                          oak vak None lk st low ltac:(done) Hl)
          as (r' & _ & _ & H). subst run. by rewrite H. }
    destruct (resolve (obj self) (names_in_force settings self) close)
      as [ic|] eqn:Hc.
    2:{ left. destruct (plot_missing_required settings self pt dvo okw vkw
                          oak vak None lk st close ltac:(done) Hc)
          as (r' & _ & _ & H). subst run. by rewrite H. }
    right.
    destruct (plot_new_store settings self pt dvo okw vkw oak vak lk st
                io ih il ic Ho Hh Hl Hc) as (f & Hst & Hsub).
    exists f. split; [done|]. by apply panel_allocation_subplots.
Qed.

(** ** Layout *)

Lemma baseline_fresh_figure dv : baseline_applied dv (fig_layout (fresh_figure dv)).
Proof. destruct dv; repeat split; vm_compute; reflexivity. Qed.

(** C7. The baseline layout is applied to a figure [plot] creates and not to
    a figure of the caller's; the caller's layout arguments are applied
    afterwards in both cases, on top of the baseline or of the layout the
    caller's figure had: a key they give is merged over the entry that was
    there, a key they do not give keeps its entry. The call returns the
    location of the figure it was given, or of the new one, and every other
    figure of the store is as before. *)
Theorem layout_defaults settings self pt dvo okw vkw oak vak fig lk st st' l f0 :
  let dv := shows_volume settings self dvo in
  plot settings self pt dvo okw vkw oak vak fig lk st = (st', Return l) ->
  figure_before fig dv st = Some f0 ->
  (forall l0, fig = Some l0 -> l = l0 /\ st !! l0 = Some f0) /\
  (fig = None ->
     l = length st /\ st !! l = None /\ baseline_applied dv (fig_layout f0)) /\
  (exists f,
     st' !! l = Some f /\
     fig_layout f = plotly_update (fig_layout f0) lk /\
     (forall k, lk !! k = None -> fig_layout f !! k = fig_layout f0 !! k) /\
     (forall k v, lk !! k = Some v ->
        fig_layout f !! k = Some (merge_entry (fig_layout f0) k v))) /\
  (forall j, j ≠ l -> j < length st -> st' !! j = st !! j).
Proof.
  intros dv Hrun Hbefore.
  destruct (plot_success_figure _ _ _ _ _ _ _ _ _ _ _ _ _ _ Hrun Hbefore)
    as (io & ih & il & ic & name & plot_obj & f & _ & _ & _ & _ & _ & _
        & Hloc & Hf & _ & Hlayout & _).
  split; [|split; [|split]].
  - intros l0 ->. simpl in *. by subst.
  - intros ->. simpl in *. injection Hbefore as <-. subst l.
    split; [done|]. split; [by apply lookup_ge_None_2|].
    apply baseline_fresh_figure.
  - exists f. split; [done|]. split; [done|]. rewrite Hlayout.
    unfold plotly_update. split.
    + intros k Hk. by rewrite lookup_merge_kwargs, Hk.
    + intros k v Hk. by rewrite lookup_merge_kwargs, Hk.
  - intros j Hne Hlt.
    destruct (plot_success _ _ _ _ _ _ _ _ _ _ _ _ _ Hrun)
      as (io' & ih' & il' & ic' & name' & plot_obj' & _ & _ & _ & _ & _ & _
          & Hst).
    subst l.
    destruct Hst as [[_ ->]|[_ (iv & _ & ->)]];
      by apply lookup_store_after_setup_ne.
Qed.

(** ** Placement *)

Lemma placement_lookup row add_trace_kwargs k :
  placement true row add_trace_kwargs !! k =
    match default ∅ add_trace_kwargs !! k with
    | Some v => Some v
    | None => ({[ "row" := VInt row; "col" := VInt 1 ]} : kwargs) !! k
    end.
Proof.
  unfold placement, merge_dicts. rewrite lookup_merge_kwargs.
  destruct (default ∅ add_trace_kwargs !! k) as [v|]; [|done].
  f_equal. unfold merge_entry.
  destruct (decide (k = "row")) as [->|Hrow].
  { rewrite lookup_insert_eq. by apply merge_value_scalar_l. }
  rewrite lookup_insert_ne by done.
  destruct (decide (k = "col")) as [->|Hcol].
  { rewrite lookup_singleton_eq. by apply merge_value_scalar_l. }
  by rewrite lookup_singleton_ne.
Qed.

(** C8. When the volume is displayed, a successful call adds the price trace
    and then the volume bar, the first placed with row 1 and column 1 and the
    second with row 2 and column 1, and each key of the caller's placement
    arguments takes the place of the default: the caller's value when the
    caller gives the key, the default otherwise. [merge_dicts] is the one
    modelled from the spec. *)
Theorem trace_placement settings self pt dvo okw vkw oak vak fig lk st st' l f0 :
  plot settings self pt dvo okw vkw oak vak fig lk st = (st', Return l) ->
  figure_before fig (shows_volume settings self dvo) st = Some f0 ->
  shows_volume settings self dvo = true ->
  exists f price p1 bar p2,
    st' !! l = Some f /\
    fig_data f = fig_data f0 ++ [(price, p1); (bar, p2)] /\
    trace_class bar = Bar /\
    p1 = merge_dicts {[ "row" := VInt 1; "col" := VInt 1 ]} (default ∅ oak) /\
    p2 = merge_dicts {[ "row" := VInt 2; "col" := VInt 1 ]} (default ∅ vak) /\
    (forall k, p1 !! k = match default ∅ oak !! k with
                         | Some v => Some v
                         | None => ({[ "row" := VInt 1; "col" := VInt 1 ]}
                                      : kwargs) !! k
                         end) /\
    (forall k, p2 !! k = match default ∅ vak !! k with
                         | Some v => Some v
                         | None => ({[ "row" := VInt 2; "col" := VInt 1 ]}
                                      : kwargs) !! k
                         end).
Proof.
  intros Hrun Hbefore Hdv.
  destruct (plot_success_figure _ _ _ _ _ _ _ _ _ _ _ _ _ _ Hrun Hbefore)
    as (io & ih & il & ic & name & plot_obj & f & _ & _ & _ & _ & _ & Hvol
        & _ & Hf & _ & _ & Hdata).
  destruct (Hvol Hdv) as [iv Hv].
  unfold traces_added in Hdata. rewrite Hdv, Hv in Hdata.
  exists f. eexists _, _, _, _.
  split; [done|]. split; [exact Hdata|]. split; [reflexivity|].
  split; [reflexivity|]. split; [reflexivity|].
  split; intros k; apply placement_lookup.
Qed.

(** ** [merge_dicts] *)

Lemma merge_entry_cases (base : kwargs) k ov :
  merge_entry base k ov =
    match base !! k, ov with
    | Some (VDict bd), VDict od => VDict (merge_dicts bd od)
    | _, _ => ov
    end.
Proof.
  unfold merge_entry.
  destruct (base !! k) as [bv|]; [|by destruct ov].
  destruct bv, ov; reflexivity.
Qed.

(** C9. The merge of [base] and [override] holds, for each key of
    [override], the recursive merge of the two entries when both are nested
    bags and the entry of [override] otherwise; a key of [base] alone keeps
    its entry. On bags as objects the merge allocates its result at a new
    reference and leaves every bag of the store, [base] included, as it was,
    so a second merge against the same [base] gives the same bag again.
    [merge_dicts] is modelled from the spec. *)
Theorem merge_dicts_semantics base override :
  (forall k ov, override !! k = Some ov ->
     merge_dicts base override !! k =
       Some (match base !! k, ov with
             | Some (VDict bd), VDict od => VDict (merge_dicts bd od)
             | _, _ => ov
             end)) /\
  (forall k, override !! k = None ->
     merge_dicts base override !! k = base !! k) /\
  (forall (st : dict_store) b o,
     st !! b = Some base -> st !! o = Some override ->
     exists st' r,
       merge_dicts_obj st b o = Some (st', r) /\
       st !! r = None /\
       st' !! r = Some (merge_dicts base override) /\
       (forall j x, st !! j = Some x -> st' !! j = Some x) /\
       exists st'' r',
         merge_dicts_obj st' b o = Some (st'', r') /\
         st'' !! r' = Some (merge_dicts base override)).
Proof.
  split; [|split].
  - intros k ov Hk. unfold merge_dicts at 1.
    by rewrite lookup_merge_kwargs, Hk, merge_entry_cases.
  - intros k Hk. unfold merge_dicts. by rewrite lookup_merge_kwargs, Hk.
  - intros st b o Hb Ho. unfold merge_dicts_obj. rewrite Hb, Ho.
    eexists _, _. split; [reflexivity|].
    split; [by apply lookup_ge_None_2|].
    split; [by apply list_lookup_middle|].
    split; [intros j x Hj; by apply lookup_app_l_Some|].
    rewrite (lookup_app_l_Some _ _ _ _ Hb), (lookup_app_l_Some _ _ _ _ Ho).
    eexists _, _. split; [reflexivity|]. by apply list_lookup_middle.
Qed.

(** * Further properties of [plot] *)

(** ** Colours of all rows *)

Lemma SFcompare_refl x : x ≠ S754_nan -> SFcompare x x = Some Eq.
Proof.
  destruct x as [s|s| |s m e]; try done; intros _; simpl.
  - by destruct s.
  - destruct s; rewrite Z.compare_refl, Pos.compare_cont_refl; done.
Qed.

Lemma is_nan_spec (d : float) : is_nan d = true <-> Prim2SF d = S754_nan.
Proof.
  unfold is_nan. rewrite negb_true_iff, FloatAxioms.eqb_spec. unfold SFeqb.
  split.
  - intros H. destruct (Prim2SF d) as [s|s| |s m e] eqn:Hd; [..|done|];
      by rewrite SFcompare_refl in H.
  - by intros ->.
Qed.

(** A float64 value is NaN or has exactly one sign. *)
Lemma float_sign_cases (d : float) :
  (is_nan d = true /\ (0 <? d)%float = false /\ (d =? 0)%float = false /\
   (d <? 0)%float = false) \/
  (is_nan d = false /\ (0 <? d)%float = true /\ (d =? 0)%float = false /\
   (d <? 0)%float = false) \/
  (is_nan d = false /\ (0 <? d)%float = false /\ (d =? 0)%float = true /\
   (d <? 0)%float = false) \/
  (is_nan d = false /\ (0 <? d)%float = false /\ (d =? 0)%float = false /\
   (d <? 0)%float = true).
Proof.
  destruct (is_nan d) eqn:Hnan.
  - left. apply is_nan_spec in Hnan.
    rewrite !FloatAxioms.ltb_spec, !FloatAxioms.eqb_spec, Hnan. done.
  - right.
    assert (Prim2SF d ≠ S754_nan) as Hn.
    { intros H. apply is_nan_spec in H. congruence. }
    rewrite !FloatAxioms.ltb_spec, !FloatAxioms.eqb_spec.
    change (Prim2SF 0) with (S754_zero false).
    destruct (Prim2SF d) as [s|s| |s m e]; try done; destruct s; cbn; tauto.
Qed.

(** A NaN operand makes the difference NaN. *)
Lemma is_nan_sub (x y : float) :
  is_nan x = true \/ is_nan y = true -> is_nan (x - y) = true.
Proof.
  rewrite !is_nan_spec, FloatAxioms.sub_spec. unfold SF64sub, SFsub.
  intros [->| ->]; [done|]. by destruct (Prim2SF x).
Qed.

(** X7. The marker colours have the volume's length, and every row that has
    an open and a close cell has its colour decided by delta = close - open
    in float64: none ([None], the initial entry) when delta is NaN, which is
    so whenever the open or the close cell is NaN, and otherwise exactly one
    of increasing (delta > 0), gray (delta == 0), decreasing (delta < 0). *)
Theorem marker_colors_total cs (o c v : Series) :
  length (marker_colors_of cs o c v) = length v /\
  (forall i oi ci,
     o !! i = Some oi -> c !! i = Some ci -> i < length v ->
     let delta := (ci - oi)%float in
     marker_colors_of cs o c v !! i =
       Some (if is_nan delta then VNone
             else if (0 <? delta)%float then increasing cs
             else if (delta =? 0)%float then gray cs
             else decreasing cs) /\
     (is_nan oi = true \/ is_nan ci = true ->
      marker_colors_of cs o c v !! i = Some VNone)).
Proof.
  split.
  - unfold marker_colors_of, mask_assign.
    by rewrite !length_imap, length_replicate.
  - intros i oi ci Ho Hc Hlt delta.
    rewrite (marker_color_at cs o c v i oi ci Ho Hc Hlt). cbv zeta.
    fold delta.
    assert (Hcases := float_sign_cases delta).
    split.
    + destruct Hcases as [H|[H|[H|H]]];
        destruct H as (-> & -> & -> & ->); reflexivity.
    + intros Hnan.
      assert (is_nan delta = true) as Hd.
      { apply is_nan_sub. tauto. }
      destruct Hcases as [H|[H|[H|H]]];
        destruct H as (Hn & -> & -> & ->); [reflexivity|congruence..].
Qed.

(** ** Which calls return, and which exception the others raise *)

Lemma first_missing_None df names :
  first_missing df names = None <->
  forall r, r ≠ volume -> is_Some (resolve df names r).
Proof.
  unfold first_missing. simpl. split.
  - intros H r Hr.
    repeat case_bool_decide; try discriminate.
    destruct r; try done; by apply not_eq_None_Some.
  - intros H.
    destruct (H open) as [? ->]; [done|].
    destruct (H high) as [? ->]; [done|].
    destruct (H low) as [? ->]; [done|].
    destruct (H close) as [? ->]; [done|].
    by repeat case_bool_decide.
Qed.


Lemma plot_first_missing settings self pt dvo okw vkw oak vak fig lk st r :
  let names := names_in_force settings self in
  first_missing (obj self) names = Some r ->
  plot settings self pt dvo okw vkw oak vak fig lk st
  = (st, Raise (MissingColumnError (Str.lower (label_of names r)))).
Proof.
  intros names Hfirst.
  unfold first_missing in Hfirst. simpl in Hfirst.
  unfold plot. fold (names_in_force settings self).
  fold (df_column_names (obj self)). unfold mbind, M_bind, bind.
  fold names.
  case_bool_decide as Ho.
  { injection Hfirst as <-.
    by rewrite (column_of_missing _ names open). }
  apply not_eq_None_Some in Ho as [io Ho].
  rewrite (column_of_resolved _ names open io) by done.
  case_bool_decide as Hh.
  { injection Hfirst as <-.
    by rewrite (column_of_missing _ names high). }
  apply not_eq_None_Some in Hh as [ih Hh].
  rewrite (column_of_resolved _ names high ih) by done.
  case_bool_decide as Hl.
  { injection Hfirst as <-.
    by rewrite (column_of_missing _ names low). }
  apply not_eq_None_Some in Hl as [il Hl].
  rewrite (column_of_resolved _ names low il) by done.
  case_bool_decide as Hc; [|done].
  injection Hfirst as <-.
  by rewrite (column_of_missing _ names close).
Qed.


(** X2. The exception of a failing call follows the order of the checks: a
    missing required column wins over everything else, the first one in the
    order open, high, low, close is named, and the store is untouched; with
    the four columns present, layout arguments that plotly refuses come
    next, then an invalid plot type; the missing volume column is reported
    last, and only when the volume is displayed and the price trace has been
    accepted and placed. *)
Theorem plot_error_precedence settings self pt dvo okw vkw oak vak fig lk st :
  let names := names_in_force settings self in
  let df := obj self in
  let run := plot settings self pt dvo okw vkw oak vak fig lk st in
  (forall r, first_missing df names = Some r ->
     run = (st, Raise (MissingColumnError (Str.lower (label_of names r))))) /\
  (first_missing df names = None ->
   accepts_layout P lk = false ->
   run.2 = Raise PlotlyError) /\
  (first_missing df names = None ->
   accepts_layout P lk = true ->
   ¬ valid_plot_type (default (ohlcv_plot_type settings) pt) ->
   run.2 = Raise InvalidPlotTypeError) /\
  (first_missing df names = None ->
   valid_plot_type (default (ohlcv_plot_type settings) pt) ->
   plotly_accepts_price settings self pt dvo okw oak fig lk st ->
   shows_volume settings self dvo = true ->
   resolve df names volume = None ->
   run.2 = Raise (MissingColumnError (Str.lower (cn_volume names)))).
Proof.
  intros names df run. split; [|split; [|split]].
  - intros r Hfirst. by apply plot_first_missing.
  - intros Hfirst Hlayout. subst run.
    pose proof (proj1 (first_missing_None _ _) Hfirst) as Hres.
    resolved_run Hres. by rewrite Hlayout.
  - intros Hfirst Hlayout Hinvalid. subst run.
    pose proof (proj1 (first_missing_None _ _) Hfirst) as Hres.
    resolved_run Hres. rewrite Hlayout.
    destruct (default (ohlcv_plot_type settings) pt) as [s|c];
      simpl in *; [|tauto].
    repeat case_decide; tauto.
  - intros Hfirst Hvalid Haccepts Hdv Hv.
    pose proof (proj1 (first_missing_None _ _) Hfirst) as Hres.
    by apply plot_volume_missing.
Qed.

(** ** What a call does to the store, whatever its outcome *)

Lemma rendered_into_id (f : Figure) : rendered_into ∅ [] f = f.
Proof.
  destruct f as [g lay data]. unfold rendered_into, plotly_update. simpl.
  by rewrite merge_kwargs_empty_r, app_nil_r.
Qed.

(** The store after a call: untouched, or the figure worked on has layout
    arguments applied and at most two traces added at the end. *)
Lemma plot_store_cases settings self pt dvo okw vkw oak vak fig lk st :
  let run := plot settings self pt dvo okw vkw oak vak fig lk st in
  (run.1 = st /\ exists e, run.2 = Raise e) \/
  exists lk' added,
    length added <= 2 /\
    run.1 = alter (rendered_into lk' added) (figure_loc fig st)
              (store_after_setup fig (shows_volume settings self dvo) st).
Proof.
  intros run. subst run.
  destruct (first_missing (obj self) (names_in_force settings self))
    as [r|] eqn:Hfirst.
  { left. rewrite (plot_first_missing _ _ _ _ _ _ _ _ _ _ _ _ Hfirst). eauto. }
  right.
  pose proof (proj1 (first_missing_None _ _) Hfirst) as Hres.
  destruct (Hres open) as [io Ho]; [done|].
  destruct (Hres high) as [ih Hh]; [done|].
  destruct (Hres low) as [il Hl]; [done|].
  destruct (Hres close) as [ic Hc]; [done|].
  rewrite (plot_run settings self pt dvo okw vkw oak vak fig lk st
             io ih il ic Ho Hh Hl Hc).
  cbv zeta.
  assert (Hlayout : forall (st0 : store) i,
            alter (set_layout lk) i st0 = alter (rendered_into lk []) i st0).
  { intros st0 i. apply list_alter_ext; [|done].
    intros f _. unfold rendered_into, set_layout. by rewrite app_nil_r. }
  destruct (accepts_layout P lk).
  2:{ exists ∅, []. split; [simpl; lia|]. cbn [fst].
      symmetry. apply list_alter_id. apply rendered_into_id. }
  destruct (resolve_plot_type (default (ohlcv_plot_type settings) pt))
    as [[name plot_obj]|e].
  2:{ exists lk, []. split; [simpl; lia|]. cbn [fst]. apply Hlayout. }
  destruct (price_built _ _ _ _ _ _ _ _ _ && placed _ _ _).
  2:{ exists lk, []. split; [simpl; lia|]. cbn [fst]. apply Hlayout. }
  assert (Hone : forall t kw (st0 : store) i,
            alter (push_trace t kw) i (alter (set_layout lk) i st0)
            = alter (rendered_into lk [(t, kw)]) i st0).
  { intros t kw st0 i. by rewrite list_alter_alter_eq. }
  destruct (shows_volume settings self dvo).
  2:{ exists lk. eexists [_]. split; [simpl; lia|]. cbn [fst]. apply Hone. }
  destruct (resolve (obj self) (names_in_force settings self) volume).
  2:{ exists lk. eexists [_]. split; [simpl; lia|]. cbn [fst]. apply Hone. }
  destruct (bar_built _ _ _ _ _ _ && placed _ _ _).
  2:{ exists lk. eexists [_]. split; [simpl; lia|]. cbn [fst]. apply Hone. }
  exists lk. eexists [_; _]. split; [simpl; lia|]. cbn [fst].
  rewrite !list_alter_alter_eq. apply list_alter_ext; [|done].
  intros f _. unfold rendered_into, push_trace, set_layout. simpl.
  by rewrite <- app_assoc.
Qed.

(** X8. Whatever its outcome, a call leaves every figure of the store other
    than the one it works on as it was and removes none. With a figure of
    the caller's the store keeps its size; without one it gains at most one
    figure, at the end, and no existing figure changes. *)
Theorem plot_frame settings self pt dvo okw vkw oak vak fig lk st :
  let run := plot settings self pt dvo okw vkw oak vak fig lk st in
  (forall j, j < length st -> j ≠ figure_loc fig st ->
     run.1 !! j = st !! j) /\
  (forall l, fig = Some l -> length run.1 = length st) /\
  (fig = None ->
     (forall j, j < length st -> run.1 !! j = st !! j) /\
     length st <= length run.1 <= S (length st)).
Proof.
  intros run.
  destruct (plot_store_cases settings self pt dvo okw vkw oak vak fig lk st)
    as [[Hst _]|(lk' & added & Hlen & Hst)]; fold run in Hst; rewrite Hst.
  - split; [done|]. split; [done|]. intros _. split; [done|lia].
  - split; [|split].
    + intros j Hlt Hne. by apply lookup_store_after_setup_ne.
    + intros l ->. by rewrite length_alter.
    + intros ->. split.
      * intros j Hlt. apply lookup_store_after_setup_ne; [|done].
        simpl. lia.
      * rewrite length_alter. simpl. rewrite length_app. simpl. lia.
Qed.

(** X9. Whatever its outcome, a call never removes, reorders or changes a
    trace of the caller's figure and never changes its grid: the figure ends
    with its old traces followed by at most two new ones. *)
Theorem plot_appends settings self pt dvo okw vkw oak vak l lk st f0 :
  let run := plot settings self pt dvo okw vkw oak vak (Some l) lk st in
  st !! l = Some f0 ->
  exists f added,
    run.1 !! l = Some f /\
    fig_subplots f = fig_subplots f0 /\
    fig_data f = fig_data f0 ++ added /\
    length added <= 2.
Proof.
  intros run Hl.
  destruct (plot_store_cases settings self pt dvo okw vkw oak vak (Some l)
              lk st) as [[Hst _]|(lk' & added & Hlen & Hst)];
    fold run in Hst; rewrite Hst.
  - exists f0, []. rewrite app_nil_r. simpl. repeat split; [done|lia].
  - exists (rendered_into lk' added f0), added. simpl.
    rewrite list_lookup_alter_eq, Hl. done.
Qed.

(** ** The figure when a call raises late *)

(** X3. No rollback on a missing volume column: when the four required
    columns and the plot type are fine, plotly has accepted the layout
    arguments and the price trace with its placement, and the volume is
    displayed by an explicit [True] although no column matches the volume
    label, the call raises the missing-column error for the volume label
    only after it has applied the layout arguments and added the price
    trace, placed at row 1, column 1, to the figure it works on. *)
Theorem price_trace_kept_on_volume_error
    settings self pt dvo okw vkw oak vak fig lk st f0 io ih il ic name plot_obj :
  let names := names_in_force settings self in
  let df := obj self in
  let run := plot settings self pt dvo okw vkw oak vak fig lk st in
  resolve df names open = Some io ->
  resolve df names high = Some ih ->
  resolve df names low = Some il ->
  resolve df names close = Some ic ->
  resolve_plot_type (default (ohlcv_plot_type settings) pt)
    = Return (name, plot_obj) ->
  shows_volume settings self dvo = true ->
  resolve df names volume = None ->
  figure_before fig true st = Some f0 ->
  plotly_accepts_price settings self pt dvo okw oak fig lk st ->
  dvo = Some true /\
  run.2 = Raise (MissingColumnError (Str.lower (cn_volume names))) /\
  run.1 !! figure_loc fig st =
    Some (rendered_into lk
            [(price_trace settings df (series_at df io) (series_at df ih)
                (series_at df il) (series_at df ic) name plot_obj okw,
              placement true 1 oak)] f0).
Proof.
  intros names df run Ho Hh Hl Hc Hpt Hdv Hv Hbefore [Hlayout Hprice]. split.
  { destruct dvo as [[]|]; [done|done|].
    destruct (shows_volume_resolves settings self None) as [? Hs];
      [done|done|]. fold names df in Hs. congruence. }
  subst run.
  rewrite (plot_run settings self pt dvo okw vkw oak vak fig lk st
             io ih il ic Ho Hh Hl Hc).
  cbv zeta. rewrite Hlayout, Hpt.
  destruct (Hprice io ih il ic name plot_obj Ho Hh Hl Hc Hpt) as [-> ->].
  cbn [andb]. rewrite Hdv. fold names df. rewrite Hv.
  split; [done|]. cbn [fst].
  rewrite list_alter_alter_eq, list_lookup_alter_eq.
  rewrite lookup_store_after_setup, Hbefore. reflexivity.
Qed.


(** ** The price trace *)

(** X5. The price trace a successful call adds comes directly after the
    figure's old traces. It is built by the plot type's class from the
    table's index as x, the cells of the four resolved columns as open,
    high, low and close, and the increasing and decreasing colours of the
    colour schema as line colours, and then updated with the caller's
    [ohlc_kwargs]: each of these properties that no key of [ohlc_kwargs]
    addresses, by its name or by a path into it, is as built. *)
Theorem price_trace_contents
    settings self pt dvo okw vkw oak vak fig lk st st' l f0 :
  let names := names_in_force settings self in
  let df := obj self in
  let cs := color_schema settings in
  plot settings self pt dvo okw vkw oak vak fig lk st = (st', Return l) ->
  figure_before fig (shows_volume settings self dvo) st = Some f0 ->
  exists io ih il ic lo lh ll lc name plot_obj f tr pl,
    resolve df names open = Some io /\
    resolve df names high = Some ih /\
    resolve df names low = Some il /\
    resolve df names close = Some ic /\
    cols df !! io = Some (lo, series_at df io) /\
    cols df !! ih = Some (lh, series_at df ih) /\
    cols df !! il = Some (ll, series_at df il) /\
    cols df !! ic = Some (lc, series_at df ic) /\
    resolve_plot_type (default (ohlcv_plot_type settings) pt)
      = Return (name, plot_obj) /\
    st' !! l = Some f /\
    fig_data f !! length (fig_data f0) = Some (tr, pl) /\
    trace_class tr = plot_obj /\
    (forall k, untouched (default ∅ okw) k ->
       trace_props tr !! k =
         ({[ "x" := VArray (index df);
             "open" := VSeries (series_at df io);
             "high" := VSeries (series_at df ih);
             "low" := VSeries (series_at df il);
             "close" := VSeries (series_at df ic);
             "name" := name;
             "increasing" :=
               VDict {[ "line" := VDict {[ "color" := increasing cs ]} ]};
             "decreasing" :=
               VDict {[ "line" := VDict {[ "color" := decreasing cs ]} ]} ]}
            : kwargs) !! k).
Proof.
  intros names df cs Hrun Hbefore.
  destruct (plot_success_figure _ _ _ _ _ _ _ _ _ _ _ _ _ _ Hrun Hbefore)
    as (io & ih & il & ic & name & plot_obj & f & Ho & Hh & Hl & Hc & Hpt & _
        & _ & Hf & _ & _ & Hdata).
  fold names df in Ho, Hh, Hl, Hc.
  destruct (resolve_series _ _ _ _ Ho) as (lo & Hco & Hlo).
  destruct (resolve_series _ _ _ _ Hh) as (lh & Hch & Hlh).
  destruct (resolve_series _ _ _ _ Hl) as (ll & Hcl & Hll).
  destruct (resolve_series _ _ _ _ Hc) as (lc & Hcc & Hlc).
  exists io, ih, il, ic, lo, lh, ll, lc, name, plot_obj, f. eexists _, _.
  do 10 (split; [done|]). split.
  { rewrite Hdata. unfold traces_added. by rewrite list_lookup_middle. }
  split; [reflexivity|].
  intros k Hk.
  assert (default ∅ okw !! k = None) as Hnone.
  { destruct (default ∅ okw !! k) as [v|] eqn:Hv; [|done].
    specialize (Hk k v Hv). unfold addresses in Hk.
    by rewrite String.eqb_refl in Hk. }
  unfold price_trace, trace_update, plotly_update. cbn [trace_props].
  by rewrite lookup_merge_kwargs, Hnone.
Qed.

(** ** A call that hides the volume *)

(** X6. When the volume is not displayed, the caller's [volume_kwargs] and
    [volume_add_trace_kwargs] have no influence on the call at all, and a
    successful call adds the price trace alone, placed with the caller's
    [ohlc_add_trace_kwargs] exactly as given: no default row or column is
    added to them. *)
Theorem hidden_volume_render settings self pt dvo okw vkw oak vak fig lk st :
  shows_volume settings self dvo = false ->
  (forall vkw' vak',
     plot settings self pt dvo okw vkw' oak vak' fig lk st
     = plot settings self pt dvo okw vkw oak vak fig lk st) /\
  (forall st' l f0,
     plot settings self pt dvo okw vkw oak vak fig lk st = (st', Return l) ->
     figure_before fig false st = Some f0 ->
     exists f tr,
       st' !! l = Some f /\
       fig_data f = fig_data f0 ++ [(tr, default ∅ oak)]).
Proof.
  intros Hdv. split.
  - intros vkw' vak'.
    unfold shows_volume, names_in_force, df_column_names in Hdv.
    unfold plot. cbv zeta. rewrite Hdv. reflexivity.
  - intros st' l f0 Hrun Hbefore. rewrite <- Hdv in Hbefore.
    destruct (plot_success_figure _ _ _ _ _ _ _ _ _ _ _ _ _ _ Hrun Hbefore)
      as (io & ih & il & ic & name & plot_obj & f & _ & _ & _ & _ & _ & _
          & _ & Hf & _ & _ & Hdata).
    unfold traces_added, placement in Hdata. rewrite Hdv in Hdata.
    eauto.
Qed.

(** ** Calls one after the other *)

(** X10. Two successful calls into the same figure of the caller's
    accumulate: both return that figure, its traces are the old ones, then
    those of the first call, then those of the second, each call adding two
    traces when it displays the volume and one otherwise, and its layout is
    the old one updated with the layout arguments of the first call and then
    of the second. *)
Theorem plot_twice
    settings1 self1 pt1 dvo1 okw1 vkw1 oak1 vak1 lk1
    settings2 self2 pt2 dvo2 okw2 vkw2 oak2 vak2 lk2
    l st st1 st2 l1 l2 f0 :
  st !! l = Some f0 ->
  plot settings1 self1 pt1 dvo1 okw1 vkw1 oak1 vak1 (Some l) lk1 st
    = (st1, Return l1) ->
  plot settings2 self2 pt2 dvo2 okw2 vkw2 oak2 vak2 (Some l) lk2 st1
    = (st2, Return l2) ->
  l1 = l /\ l2 = l /\
  exists f added1 added2,
    st2 !! l = Some f /\
    fig_data f = fig_data f0 ++ added1 ++ added2 /\
    length added1 = (if shows_volume settings1 self1 dvo1 then 2 else 1) /\
    length added2 = (if shows_volume settings2 self2 dvo2 then 2 else 1) /\
    fig_subplots f = fig_subplots f0 /\
    fig_layout f = plotly_update (plotly_update (fig_layout f0) lk1) lk2.
Proof.
  intros Hl Hrun1 Hrun2.
  destruct (plot_success_figure _ _ _ _ _ _ _ _ _ _ _ _ _ f0 Hrun1 Hl)
    as (io & ih & il & ic & name & plot_obj & f1 & _ & _ & _ & _ & _ & Hvol1
        & Hl1 & Hf1 & Hsub1 & Hlay1 & Hdata1).
  simpl in Hl1. subst l1.
  destruct (plot_success_figure _ _ _ _ _ _ _ _ _ _ _ _ _ f1 Hrun2 Hf1)
    as (io' & ih' & il' & ic' & name' & plot_obj' & f2 & _ & _ & _ & _ & _
        & Hvol2 & Hl2 & Hf2 & Hsub2 & Hlay2 & Hdata2).
  simpl in Hl2. subst l2.
  split; [done|]. split; [done|].
  exists f2. eexists _, _. split; [done|]. split.
  { rewrite Hdata2, Hdata1, <- app_assoc. reflexivity. }
  split; [|split; [|split]].
  - unfold traces_added. destruct (shows_volume settings1 self1 dvo1); [|done].
    by destruct Hvol1 as [? ->].
  - unfold traces_added. destruct (shows_volume settings2 self2 dvo2); [|done].
    by destruct Hvol2 as [? ->].
  - congruence.
  - by rewrite Hlay2, Hlay1.
Qed.

(** ** Casing *)

Lemma resolve_plot_type_caseless p q :
  plot_type_caseless p q -> resolve_plot_type p = resolve_plot_type q.
Proof.
  destruct p as [s|c], q as [t|d]; simpl; try done.
  - unfold Str.caseless_eq. by intros ->.
  - by intros ->.
Qed.

Lemma series_at_ext df df' i :
  map snd (cols df') = map snd (cols df) -> series_at df' i = series_at df i.
Proof.
  intros Hcols. unfold series_at.
  pose proof (f_equal (fun l : list Series => l !! i) Hcols) as Hi.
  cbv beta in Hi. rewrite !list_lookup_fmap in Hi. by rewrite Hi.
Qed.

(** X11. The whole call is blind to case: two calls whose column mappings,
    table labels and string plot types differ by case only, on tables with
    the same cells and index, end in the same store with the same result,
    be it the figure or the exception. *)
Theorem plot_casing_invariant
    settings settings' self self' pt pt' dvo okw vkw oak vak fig lk st :
  (forall r, Str.caseless_eq (label_of (names_in_force settings' self') r)
                             (label_of (names_in_force settings self) r)) ->
  Forall2 Str.caseless_eq (columns (obj self')) (columns (obj self)) ->
  map snd (cols (obj self')) = map snd (cols (obj self)) ->
  index (obj self') = index (obj self) ->
  color_schema settings' = color_schema settings ->
  plot_type_caseless (default (ohlcv_plot_type settings') pt')
                     (default (ohlcv_plot_type settings) pt) ->
  plot settings' self' pt' dvo okw vkw oak vak fig lk st
  = plot settings self pt dvo okw vkw oak vak fig lk st.
Proof.
  intros Hnames Hcols Hcells Hindex Hcs Hpt.
  set (names := names_in_force settings self) in *.
  set (names' := names_in_force settings' self') in *.
  assert (Hdfc : df_column_names (obj self') = df_column_names (obj self)).
  { unfold df_column_names. by apply caseless_columns. }
  assert (Hres : forall r,
            resolve (obj self') names' r = resolve (obj self) names r).
  { intros r. unfold resolve. rewrite Hdfc.
    pose proof (Hnames r) as Hr. unfold Str.caseless_eq in Hr.
    by rewrite Hr. }
  assert (Hdv : shows_volume settings' self' dvo
                = shows_volume settings self dvo).
  { unfold shows_volume, resolve_display_volume. fold names names'.
    rewrite Hdfc. pose proof (Hnames volume) as Hr.
    unfold Str.caseless_eq in Hr. simpl in Hr. by rewrite Hr. }
  assert (Hfirst : first_missing (obj self') names'
                   = first_missing (obj self) names).
  { unfold first_missing. simpl. by rewrite !Hres. }
  destruct (first_missing (obj self) names) as [r|] eqn:Hmiss.
  - rewrite (plot_first_missing settings self _ _ _ _ _ _ _ _ _ r Hmiss).
    rewrite (plot_first_missing settings' self' _ _ _ _ _ _ _ _ _ r Hfirst).
    fold names names'. pose proof (Hnames r) as Hr.
    unfold Str.caseless_eq in Hr. by rewrite Hr.
  - pose proof (proj1 (first_missing_None _ _) Hmiss) as Hsome.
    destruct (Hsome open) as [io Ho]; [done|].
    destruct (Hsome high) as [ih Hh]; [done|].
    destruct (Hsome low) as [il Hl]; [done|].
    destruct (Hsome close) as [ic Hc]; [done|].
    rewrite (plot_run settings self pt dvo okw vkw oak vak fig lk st
               io ih il ic Ho Hh Hl Hc).
    rewrite (plot_run settings' self' pt' dvo okw vkw oak vak fig lk st
               io ih il ic) by (fold names'; by rewrite Hres).
    cbv zeta. fold names names'.
    rewrite (resolve_plot_type_caseless _ _ Hpt), Hdv, (Hres volume).
    pose proof (Hnames volume) as Hr. unfold Str.caseless_eq in Hr.
    simpl in Hr. rewrite Hr.
    unfold price_trace, volume_bar, price_built, bar_built.
    rewrite Hcs, Hindex, !(series_at_ext _ _ _ Hcells).
    destruct (accepts_layout P lk); [|done].
    destruct (resolve_plot_type (default (ohlcv_plot_type settings) pt))
      as [[name plot_obj]|e]; [|done].
    destruct (shows_volume settings self dvo);
      [|reflexivity].
    destruct (resolve (obj self) names volume) as [iv|]; [|done].
    by rewrite (series_at_ext _ _ iv Hcells).
Qed.

End Render.

(** * Sample runs *)

(** The sample runs are made with the checks of [plotly_checks]. *)
Ltac sample_run := vm_compute; reflexivity.

(** plotly's acceptance on a sample input: the resolved positions and the
    plot type are computed, then the checks are run. *)
Ltac sample_accepts_price :=
  split; [sample_run|];
  let io := fresh "io" in
  let ih := fresh "ih" in
  let il := fresh "il" in
  let ic := fresh "ic" in
  let name := fresh "name" in
  let plot_obj := fresh "plot_obj" in
  let Ho := fresh "Ho" in
  let Hh := fresh "Hh" in
  let Hl := fresh "Hl" in
  let Hc := fresh "Hc" in
  let Hpt := fresh "Hpt" in
  intros io ih il ic name plot_obj Ho Hh Hl Hc Hpt;
  vm_compute in Ho, Hh, Hl, Hc, Hpt; simplify_eq;
  split; sample_run.



(** C1, the claim as written fails. Here the four required roles resolve and
    only the volume label is absent, yet the call raises: an explicit
    [display_volume=True] makes line 165 look the volume column up. *)
Lemma volume_absence_raises :
  resolve ex_frame_no_volume ex_names open = Some 0 /\
  resolve ex_frame_no_volume ex_names high = Some 1 /\
  resolve ex_frame_no_volume ex_names low = Some 2 /\
  resolve ex_frame_no_volume ex_names close = Some 3 /\
  resolve ex_frame_no_volume ex_names volume = None /\
  (plot plotly_checks ex_settings (ex_self ex_frame_no_volume) None (Some true)
     None None None None None ∅ []).2
  = Raise (MissingColumnError "volume").
Proof. vm_compute. repeat split; reflexivity. Qed.

(** C1, runs of the amended statement. A table without the close column
    raises the missing-column error for it. A table whose labels are spelled
    in other cases than the mapping's and which has no volume column returns
    when [display_volume] is unset, and raises the missing-column error for
    the volume label when [display_volume] is an explicit [True]. *)
Lemma column_resolution_witness :
  (exists label,
     plot plotly_checks ex_settings (ex_self ex_frame_no_close) None None
       None None None None None ∅ []
     = ([], Raise (MissingColumnError label))) /\
  (plot plotly_checks ex_settings (ex_self ex_frame_recased_no_volume) None
     None None None None None None ∅ []).2 = Return 0 /\
  (plot plotly_checks ex_settings (ex_self ex_frame_recased_no_volume) None
     (Some true) None None None None None ∅ []).2
  = Raise (MissingColumnError "volume").
Proof.
  split; [|split].
  - apply (column_resolution plotly_checks ex_settings
             (ex_self ex_frame_no_close) None None
             None None None None None ∅ []) with (r := close); [done|].
    intros label Hin. vm_compute in Hin.
    unfold Str.caseless_eq.
    repeat (apply elem_of_cons in Hin as [->|Hin]; [by vm_compute|]).
    by apply elem_of_nil in Hin.
  - apply (column_resolution plotly_checks ex_settings
             (ex_self ex_frame_recased_no_volume) None None
             None None None None None ∅ []).
    + intros [] ?; vm_compute; eauto; done.
    + done.
    + left. sample_run.
    + split; [sample_accepts_price|]. intros Hdv. vm_compute in Hdv. done.
  - apply (column_resolution plotly_checks ex_settings
             (ex_self ex_frame_recased_no_volume) None (Some true)
             None None None None None ∅ []).
    + intros [] ?; vm_compute; eauto; done.
    + done.
    + sample_run.
    + left. sample_run.
    + sample_accepts_price.
Defined.

(** The labels "Open", "OPEN" and "open" name the same column, whatever the
    casing of the table's own labels. *)
Example resolve_any_casing :
  Str.caseless_eq "OPEN" "Open" /\ Str.caseless_eq "open" "Open" /\
  Str.upper "Open" = "OPEN" /\ Str.lower "Open" = "open" /\
  resolve ex_frame ex_names open = Some 0 /\
  resolve ex_frame
    {| cn_open := "OPEN"; cn_high := "hIgH"; cn_low := "low";
       cn_close := "CLOSE"; cn_volume := "volume" |} open = Some 0 /\
  resolve ex_frame_dup ex_names close = Some 4 /\
  resolve
    {| index := ex_index;
       cols := [("open", []); ("OPEN", []); ("HIGH", []); ("low", []);
                ("cLoSe", []); ("Volume", []); ("volume", [])] |}
    ex_names close = Some 4.
Proof. repeat split; vm_compute; reflexivity. Qed.

(** C2, four runs on the sample tables: unset, the volume shows with the
    volume column and hides without it; an explicit flag wins both ways. With
    the column present and the flag unset the call adds two traces to a new
    figure of two panels. *)
Lemma volume_visibility_witness :
  shows_volume ex_settings (ex_self ex_frame) None = true /\
  shows_volume ex_settings (ex_self ex_frame_no_volume) None = false /\
  shows_volume ex_settings (ex_self ex_frame) (Some false) = false /\
  shows_volume ex_settings (ex_self ex_frame_no_volume) (Some true) = true /\
  (exists f,
     (plot plotly_checks ex_settings (ex_self ex_frame) None None None None None None
        None ∅ []).1 !! 0 = Some f /\
     length (fig_data f) = 2 /\ panels f = 2).
Proof.
  split; [vm_compute; reflexivity|]. split; [vm_compute; reflexivity|].
  split; [exact (proj1 (volume_visibility plotly_checks ex_settings (ex_self ex_frame)
                          (Some false)) false eq_refl)|].
  split; [exact (proj1 (volume_visibility plotly_checks ex_settings
                          (ex_self ex_frame_no_volume) (Some true))
                   true eq_refl)|].
  destruct (proj2 (proj2 (volume_visibility plotly_checks ex_settings (ex_self ex_frame)
                            None))
              None None None None None None ∅ []
              (plot plotly_checks ex_settings (ex_self ex_frame) None None None None None
                 None None ∅ []).1 0 (fresh_figure true))
    as (f & Hf & Hlen & Hpanels);
    [vm_compute; reflexivity|vm_compute; reflexivity|].
  exists f. split; [exact Hf|]. split; [exact Hlen|].
  exact (Hpanels eq_refl).
Defined.

(** C10, the table with "OPEN" before "Open": the open role resolves to
    position 0, which holds a match, and the volume role to "volume" at
    position 5, before which no label matches. *)
Lemma first_match_resolution_witness :
  (exists label, columns ex_frame_dup !! 0 = Some label /\
                 Str.caseless_eq label "Open") /\
  (forall j label, j < 5 -> columns ex_frame_dup !! j = Some label ->
                   ¬ Str.caseless_eq label "Volume").
Proof.
  split.
  - exact (proj1 (proj1 (first_match_resolution plotly_checks ex_settings
                           (ex_self ex_frame_dup)) open 0 eq_refl)).
  - exact (proj2 (proj1 (first_match_resolution plotly_checks ex_settings
                           (ex_self ex_frame_dup)) volume 5 eq_refl)).
Defined.

(** With both "OPEN" and "Open" present the open role takes position 0, the
    volume role takes "volume" at position 5 rather than "VOLUME" at 6, and
    the bar plotted carries the cells of position 5. *)
Example first_match_dup :
  resolve ex_frame_dup ex_names open = Some 0 /\
  resolve ex_frame_dup ex_names volume = Some 5 /\
  (exists tr pl,
     (plot plotly_checks ex_settings (ex_self ex_frame_dup) None None None None None None
        None ∅ []).1 !! 0 ≫= (fun f => fig_data f !! 1) = Some (tr, pl) /\
     trace_props tr !! "y" = Some (VSeries [100; 200; 300]%float)).
Proof.
  split; [reflexivity|]. split; [reflexivity|].
  eexists _, _. split; vm_compute; reflexivity.
Qed.

(** C4, the claim as written fails: the plot type "line" on a table without
    the close column raises the missing-column error, not the plot-type
    one. *)
Lemma plot_type_error_comes_second :
  plot plotly_checks ex_settings (ex_self ex_frame_no_close)
    (Some (PTStr "line")) None None None None None None ∅ []
  = ([], Raise (MissingColumnError "close")).
Proof. sample_run. Qed.

(** C4, runs of the amended statement. The spelling "CandleStick" selects
    the candlestick class and the name "Candlestick", and the call on the
    sample table gives them to the trace it adds to the caller's figure. The
    plot type "line" raises the invalid-plot-type error and the figure keeps
    its one trace. *)
Lemma plot_type_resolution_witness :
  resolve_plot_type (PTStr "CandleStick")
  = Return (VStr "Candlestick", Candlestick) /\
  (exists f tr pl,
     (plot plotly_checks ex_settings (ex_self ex_frame)
        (Some (PTStr "CandleStick")) None None None None None (Some 0) ∅
        [ex_figure]).1 !! 0 = Some f /\
     fig_data f !! 1 = Some (tr, pl) /\
     trace_class tr = Candlestick /\
     trace_props tr !! "name" = Some (VStr "Candlestick")) /\
  (plot plotly_checks ex_settings (ex_self ex_frame) (Some (PTStr "line"))
     None None None None None (Some 0) ∅ [ex_figure]).2
  = Raise InvalidPlotTypeError /\
  (forall j f,
     (plot plotly_checks ex_settings (ex_self ex_frame) (Some (PTStr "line"))
        None None None None None (Some 0) ∅ [ex_figure]).1 !! j = Some f ->
     fig_data f = match [ex_figure] !! j with
                  | Some f0 => fig_data f0
                  | None => []
                  end).
Proof.
  destruct (plot_type_resolution plotly_checks ex_settings (ex_self ex_frame)
              (Some (PTStr "CandleStick")) None None None None None (Some 0)
              ∅ [ex_figure] "CandleStick" eq_refl)
    as (_ & Hcandle & _ & Hadded & _).
  destruct (plot_type_resolution plotly_checks ex_settings (ex_self ex_frame)
              (Some (PTStr "line")) None None None None None (Some 0) ∅
              [ex_figure] "line" eq_refl) as (_ & _ & _ & _ & H).
  split; [exact (Hcandle eq_refl)|]. split.
  - destruct (Hadded 0 ex_figure) as (name & plot_obj & f & tr & pl & Hres
                                      & Hf & Htr & Hclass & Hname);
      [sample_run|reflexivity|].
    rewrite (Hcandle eq_refl) in Hres. injection Hres as <- <-.
    exists f, tr, pl. split; [exact Hf|]. split; [exact Htr|].
    split; [exact Hclass|]. apply Hname. reflexivity.
  - destruct H as (_ & _ & Hraise & Hkept).
    + vm_compute. discriminate.
    + vm_compute. discriminate.
    + split; [|exact Hkept]. apply Hraise; [|sample_run].
      intros [] ?; vm_compute; eauto.
Defined.

(** C5, the code at a custom constructor. With the trace class
    [CustomTrace 7] as plot type the call returns, the trace it adds is made
    by that class, and its name property is what line 149 passed: the class
    object itself. The name is therefore not left to the constructor. *)
Theorem custom_constructor_receives_name :
  (plot plotly_checks ex_settings (ex_self ex_frame)
     (Some (PTClass (CustomTrace 7)))
     (Some false) None None None None None ∅ []).2 = Return 0 /\
  exists tr pl,
    (plot plotly_checks ex_settings (ex_self ex_frame)
       (Some (PTClass (CustomTrace 7)))
       (Some false) None None None None None ∅ []).1 !! 0
      ≫= (fun f => fig_data f !! 0) = Some (tr, pl) /\
    trace_class tr = CustomTrace 7 /\
    trace_props tr !! "name" = Some (VClass (CustomTrace 7)).
Proof.
  split; [sample_run|]. eexists _, _.
  split; [sample_run|]. split; reflexivity.
Qed.

(** With one of plotly's own classes as plot type the class object arrives
    as the name as well, and plotly refuses it. *)
Example plotly_class_as_plot_type :
  (plot plotly_checks ex_settings (ex_self ex_frame) (Some (PTClass Ohlc))
     (Some false) None None None None None ∅ []).2 = Raise PlotlyError.
Proof. sample_run. Qed.

(** C3, the three rows of the sample table, whose close - open is +1, 0 and
    -1, and the bar of a run on it. *)
Lemma volume_bar_colouring_witness :
  marker_colors_of ex_colors [10; 11; 12]%float [11; 11; 11]%float
    [100; 200; 300]%float !! 0 = Some (increasing ex_colors) /\
  marker_colors_of ex_colors [10; 11; 12]%float [11; 11; 11]%float
    [100; 200; 300]%float !! 1 = Some (gray ex_colors) /\
  marker_colors_of ex_colors [10; 11; 12]%float [11; 11; 11]%float
    [100; 200; 300]%float !! 2 = Some (decreasing ex_colors) /\
  (exists f bar pl,
     (plot plotly_checks ex_settings (ex_self ex_frame) None None None None None None
        None ∅ []).1 !! 0 = Some f /\
     fig_data f !! 1 = Some (bar, pl) /\
     trace_class bar = Bar /\
     trace_props bar !! "name" = Some (VStr "Volume") /\
     trace_props bar !! "opacity" = Some (VFloat 0.5%float)).
Proof.
  pose proof (volume_bar_colouring plotly_checks ex_settings (ex_self ex_frame))
    as (Hcolour & Hbuilt & Hrun).
  split; [|split; [|split]].
  - apply (Hcolour ex_colors [10; 11; 12]%float [11; 11; 11]%float
             [100; 200; 300]%float 0 10%float 11%float);
      [reflexivity|reflexivity|simpl; lia|reflexivity].
  - apply (Hcolour ex_colors [10; 11; 12]%float [11; 11; 11]%float
             [100; 200; 300]%float 1 11%float 11%float);
      [reflexivity|reflexivity|simpl; lia|reflexivity].
  - apply (Hcolour ex_colors [10; 11; 12]%float [11; 11; 11]%float
             [100; 200; 300]%float 2 12%float 11%float);
      [reflexivity|reflexivity|simpl; lia|reflexivity].
  - destruct (Hrun None None None None None None None ∅ []
                (plot plotly_checks ex_settings (ex_self ex_frame) None None None None None
                   None None ∅ []).1 0 (fresh_figure true))
      as (io & ic & iv & f & bar & pl & _ & _ & _ & Hf & Hbar & _ & Hclass
          & _ & Hkeep);
      [vm_compute; reflexivity|vm_compute; reflexivity
      |vm_compute; reflexivity|].
    exists f, bar, pl. split; [exact Hf|]. split; [exact Hbar|].
    split; [exact Hclass|].
    rewrite !Hkeep by reflexivity.
    split; apply Hbuilt.
Defined.

(** C3, the rows of the sample table: close - open is +1, 0, -1 and the
    colours are increasing, gray, decreasing, for any colour schema. *)
Example marker_colors_by_sign cs :
  marker_colors_of cs [10; 11; 12]%float [11; 11; 11]%float
    [100; 200; 300]%float
  = [increasing cs; gray cs; decreasing cs].
Proof. reflexivity. Qed.

(** A row whose difference is NaN takes none of the three colours. *)
Example marker_colors_nan cs :
  marker_colors_of cs [nan]%float [1]%float [5]%float = [VNone].
Proof. reflexivity. Qed.

(** C6, a run on the sample table into a store that holds a figure already:
    the call returns location 1, the new figure, which has the two panels. *)
Lemma fresh_figure_panels_witness :
  exists f,
    (plot plotly_checks ex_settings (ex_self ex_frame) None None None None None None
       None ∅ [ex_figure]).1 = [ex_figure; f] /\
    fig_subplots f = Some two_panels /\ panels f = 2.
Proof.
  destruct (proj1 (fresh_figure_panels plotly_checks ex_settings (ex_self ex_frame) None
                     None None None None None ∅ [ex_figure]) 1)
    as (_ & f & Hst & _ & Halloc); [vm_compute; reflexivity|].
  exists f. split; [exact Hst|].
  change (shows_volume ex_settings (ex_self ex_frame) None)
    with true in Halloc.
  destruct Halloc as (Hsub & Hpanels & _). split; [exact Hsub|exact Hpanels].
Defined.

(** C6 on the sample tables: two panels with the volume column, one
    without. *)
Example fresh_figure_panels_sample :
  ((plot plotly_checks ex_settings (ex_self ex_frame) None None None None None None
      None ∅ []).1 !! 0 ≫= fig_subplots) = Some two_panels /\
  (panels <$> (plot plotly_checks ex_settings (ex_self ex_frame) None None None None None
                 None None ∅ []).1 !! 0) = Some 2 /\
  (panels <$> (plot plotly_checks ex_settings (ex_self ex_frame_no_volume) None None None
                 None None None None ∅ []).1 !! 0) = Some 1.
Proof. repeat split; vm_compute; reflexivity. Qed.

(** C7, two runs with the layout argument [showlegend=False]: on a figure of
    the caller's, whose title stays and which gains no baseline entry, and on
    a new figure, where the argument replaces the baseline's entry. *)
Lemma layout_defaults_witness :
  (exists f,
     (plot plotly_checks ex_settings (ex_self ex_frame) None None None None None None
        (Some 0) {[ "showlegend" := VBool false ]} [ex_figure]).1 !! 0
     = Some f /\
     fig_layout f
     = plotly_update (fig_layout ex_figure) {[ "showlegend" := VBool false ]}) /\
  (exists f,
     (plot plotly_checks ex_settings (ex_self ex_frame) None None None None None None
        None {[ "showlegend" := VBool false ]} []).1 !! 0
     = Some f /\
     fig_layout f
     = plotly_update (fig_layout (fresh_figure true))
         {[ "showlegend" := VBool false ]}).
Proof.
  split.
  - destruct (layout_defaults plotly_checks ex_settings (ex_self ex_frame) None None None
                None None None (Some 0) {[ "showlegend" := VBool false ]}
                [ex_figure]
                (plot plotly_checks ex_settings (ex_self ex_frame) None None None None None
                   None (Some 0) {[ "showlegend" := VBool false ]}
                   [ex_figure]).1 0 ex_figure)
      as (_ & _ & (f & Hf & Hlayout & _) & _);
      [vm_compute; reflexivity|vm_compute; reflexivity|].
    exists f. split; [exact Hf|exact Hlayout].
  - destruct (layout_defaults plotly_checks ex_settings (ex_self ex_frame) None None None
                None None None None {[ "showlegend" := VBool false ]} []
                (plot plotly_checks ex_settings (ex_self ex_frame) None None None None None
                   None None {[ "showlegend" := VBool false ]} []).1 0
                (fresh_figure true))
      as (_ & _ & (f & Hf & Hlayout & _) & _);
      [vm_compute; reflexivity|vm_compute; reflexivity|].
    exists f. split; [exact Hf|exact Hlayout].
Defined.

(** C8, two runs on the sample table: without placement arguments the traces
    go to rows 1 and 2; a caller's [row=1] for the volume wins over the
    default while the default column stays. *)
Lemma trace_placement_witness :
  (exists f price p1 bar p2,
     (plot plotly_checks ex_settings (ex_self ex_frame) None None None None
        None None None ∅ []).1 !! 0 = Some f /\
     fig_data f = [(price, p1); (bar, p2)] /\
     p1 !! "row" = Some (VInt 1) /\ p1 !! "col" = Some (VInt 1) /\
     p2 !! "row" = Some (VInt 2) /\ p2 !! "col" = Some (VInt 1)) /\
  (exists f price p1 bar p2,
     (plot plotly_checks ex_settings (ex_self ex_frame) None None None None
        None (Some {[ "row" := VInt 1 ]}) None ∅ []).1 !! 0 = Some f /\
     fig_data f = [(price, p1); (bar, p2)] /\
     p2 !! "row" = Some (VInt 1) /\ p2 !! "col" = Some (VInt 1)).
Proof.
  split.
  - destruct (trace_placement plotly_checks ex_settings (ex_self ex_frame)
                None None None None None None None ∅ []
                (plot plotly_checks ex_settings (ex_self ex_frame) None None
                   None None None None None ∅ []).1 0 (fresh_figure true))
      as (f & price & p1 & bar & p2 & Hf & Hdata & _ & _ & _ & H1 & H2);
      [sample_run|sample_run|sample_run|].
    exists f, price, p1, bar, p2. split; [exact Hf|]. split; [exact Hdata|].
    rewrite !H1, !H2. repeat split; sample_run.
  - destruct (trace_placement plotly_checks ex_settings (ex_self ex_frame)
                None None None None None (Some {[ "row" := VInt 1 ]}) None ∅
                []
                (plot plotly_checks ex_settings (ex_self ex_frame) None None
                   None None None (Some {[ "row" := VInt 1 ]}) None ∅ []).1 0
                (fresh_figure true))
      as (f & price & p1 & bar & p2 & Hf & Hdata & _ & _ & _ & H1 & H2);
      [sample_run|sample_run|sample_run|].
    exists f, price, p1, bar, p2. split; [exact Hf|]. split; [exact Hdata|].
    rewrite !H2. repeat split; sample_run.
Defined.

(** A placement outside the grid is refused by plotly: the call raises after
    the price trace has been added. *)
Example placement_outside_grid :
  (plot plotly_checks ex_settings (ex_self ex_frame) None None None None
     None (Some {[ "row" := VInt 3 ]}) None ∅ []).2 = Raise PlotlyError.
Proof. sample_run. Qed.

(** C9, the bags of the spec at the keys b, given by both sides as nested
    bags, and a, given by the base alone. *)
Lemma merge_dicts_semantics_witness :
  merge_dicts ex_base ex_override !! "b"
  = Some (VDict (merge_dicts {[ "c" := VInt 2 ]} {[ "d" := VInt 3 ]})) /\
  merge_dicts ex_base ex_override !! "a" = Some (VInt 1).
Proof.
  pose proof (merge_dicts_semantics ex_base ex_override) as (Hover & Hbase & _).
  split.
  - exact (Hover "b" (VDict {[ "d" := VInt 3 ]}) eq_refl).
  - exact (Hbase "a" eq_refl).
Defined.

(** C9, the bags of the spec: {a: 1, b: {c: 2}} merged with {b: {d: 3}} is
    {a: 1, b: {c: 2, d: 3}}, and the base bag is still in the store. *)
Example merge_dicts_sample :
  merge_dicts ex_base ex_override
  = {[ "a" := VInt 1; "b" := VDict {[ "c" := VInt 2; "d" := VInt 3 ]} ]} /\
  (exists st',
     merge_dicts_obj [ex_base; ex_override] 0 1 = Some (st', 2) /\
     st' !! 0 = Some ex_base /\
     st' !! 2 = Some (merge_dicts ex_base ex_override)).
Proof.
  split; [vm_compute; reflexivity|].
  eexists. split; [reflexivity|]. split; reflexivity.
Qed.

(** X7, a row with a NaN open, a row with equal infinite prices, whose
    difference is NaN, and an ordinary falling row. *)
Lemma marker_colors_total_witness :
  marker_colors_of ex_colors [nan; infinity; 3]%float [1; infinity; 2]%float
    [5; 6; 7]%float
  = [VNone; VNone; decreasing ex_colors] /\
  marker_colors_of ex_colors [nan; infinity; 3]%float [1; infinity; 2]%float
    [5; 6; 7]%float !! 0 = Some VNone.
Proof.
  split; [reflexivity|].
  apply (proj2 (marker_colors_total ex_colors [nan; infinity; 3]%float
                  [1; infinity; 2]%float [5; 6; 7]%float)
           0 nan 1%float); [reflexivity|reflexivity|simpl; lia|].
  left. reflexivity.
Defined.


(** A caller's figure without a grid cannot take the traces of a call that
    displays the volume: plotly refuses the placement at row 1. *)
Example figure_without_grid :
  (plot plotly_checks ex_settings (ex_self ex_frame) None None None None None
     None (Some 0) ∅
     [{| fig_subplots := None; fig_layout := ∅; fig_data := [] |}]).2
  = Raise PlotlyError.
Proof. sample_run. Qed.

(** Rows without a price leave [None] among the marker colours, which plotly
    refuses. *)
Example nan_rows_refused :
  (plot plotly_checks ex_settings
     (ex_self {| index := [VInt 0];
                 cols := [("Open", [nan]%float); ("High", [1]%float);
                          ("Low", [1]%float); ("Close", [1]%float);
                          ("Volume", [5]%float)] |})
     None None None None None None None ∅ []).2 = Raise PlotlyError.
Proof. sample_run. Qed.

(** X2, four failing runs into a figure of the caller's. Without the close
    column, with the plot type "line" and an explicit [display_volume=True],
    the close column is the one reported and the store is as it was. With
    the columns present, a layout argument plotly does not know is reported
    before the plot type "line", the plot type "line" before the missing
    volume column, and the missing volume column last. *)
Lemma plot_error_precedence_witness :
  plot plotly_checks ex_settings (ex_self ex_frame_no_close)
    (Some (PTStr "line")) (Some true) None None None None (Some 0) ∅
    [ex_figure]
  = ([ex_figure], Raise (MissingColumnError "close")) /\
  (plot plotly_checks ex_settings (ex_self ex_frame_no_volume)
     (Some (PTStr "line")) (Some true) None None None None (Some 0)
     {[ "no_such_property" := VInt 1 ]} [ex_figure]).2
  = Raise PlotlyError /\
  (plot plotly_checks ex_settings (ex_self ex_frame_no_volume)
     (Some (PTStr "line")) (Some true) None None None None (Some 0) ∅
     [ex_figure]).2
  = Raise InvalidPlotTypeError /\
  (plot plotly_checks ex_settings (ex_self ex_frame_no_volume)
     (Some (PTStr "oHLc")) (Some true) None None None None (Some 0) ∅
     [ex_figure]).2
  = Raise (MissingColumnError "volume").
Proof.
  split; [|split; [|split]].
  - exact (proj1 (plot_error_precedence plotly_checks ex_settings
                    (ex_self ex_frame_no_close)
                    (Some (PTStr "line")) (Some true) None None None None
                    (Some 0) ∅ [ex_figure]) close eq_refl).
  - apply (plot_error_precedence plotly_checks ex_settings
             (ex_self ex_frame_no_volume)
             (Some (PTStr "line")) (Some true) None None None None
             (Some 0) {[ "no_such_property" := VInt 1 ]} [ex_figure]);
      sample_run.
  - apply (plot_error_precedence plotly_checks ex_settings
             (ex_self ex_frame_no_volume)
             (Some (PTStr "line")) (Some true) None None None None
             (Some 0) ∅ [ex_figure]); [sample_run|sample_run|].
    intros [H|H]; vm_compute in H; discriminate.
  - apply (plot_error_precedence plotly_checks ex_settings
             (ex_self ex_frame_no_volume)
             (Some (PTStr "oHLc")) (Some true) None None None None
             (Some 0) ∅ [ex_figure]).
    + sample_run.
    + left. sample_run.
    + sample_accepts_price.
    + sample_run.
    + sample_run.
Defined.

(** X8, a store of two figures and a call into the second one that raises
    after it has added the price trace: the first figure is as it was. *)
Lemma plot_frame_witness :
  (plot plotly_checks ex_settings (ex_self ex_frame_no_volume) None (Some true)
     None None None None (Some 1) ∅ [ex_figure; ex_figure]).1 !! 0
  = Some ex_figure.
Proof.
  apply (proj1 (plot_frame plotly_checks ex_settings (ex_self ex_frame_no_volume) None
                  (Some true) None None None None (Some 1) ∅
                  [ex_figure; ex_figure]) 0); simpl; lia.
Defined.

(** X9, the caller's figure with its one trace after a call that displays
    the volume: three traces, the old one first. *)
Lemma plot_appends_witness :
  exists f added,
    (plot plotly_checks ex_settings (ex_self ex_frame) None None None None None None
       (Some 0) ∅ [ex_figure]).1 !! 0 = Some f /\
    fig_subplots f = fig_subplots ex_figure /\
    fig_data f = fig_data ex_figure ++ added /\
    length added <= 2.
Proof.
  exact (plot_appends plotly_checks ex_settings (ex_self ex_frame) None None None None None
           None 0 ∅ [ex_figure] ex_figure eq_refl).
Defined.

(** X3, the table without volume column, an explicit [True] and a figure of
    the caller's: the call raises and the figure has gained the price
    trace. *)
Lemma price_trace_kept_on_volume_error_witness :
  (plot plotly_checks ex_settings (ex_self ex_frame_no_volume) None
     (Some true) None None None None (Some 0) ∅ [ex_figure]).2
  = Raise (MissingColumnError "volume") /\
  length <$> (fig_data <$>
    (plot plotly_checks ex_settings (ex_self ex_frame_no_volume) None
       (Some true) None None None None (Some 0) ∅ [ex_figure]).1 !! 0)
  = Some 2.
Proof.
  destruct (price_trace_kept_on_volume_error plotly_checks ex_settings
              (ex_self ex_frame_no_volume) None (Some true) None None None
              None (Some 0) ∅ [ex_figure] ex_figure 0 1 2 3 (VStr "OHLC") Ohlc)
    as (_ & Hraise & Hfig);
    [sample_run|sample_run|sample_run|sample_run|sample_run|sample_run
    |sample_run|sample_run|sample_accepts_price|].
  split; [exact Hraise|]. cbn [figure_loc] in Hfig. rewrite Hfig.
  reflexivity.
Defined.


(** X5, a run on the sample table with [ohlc_kwargs] that give a name and an
    opacity: the open cells are those of the table and the rising line colour
    is the colour schema's. *)
Lemma price_trace_contents_witness :
  exists tr pl,
    ((plot plotly_checks ex_settings (ex_self ex_frame) None None
        (Some {[ "name" := VStr "BTC"; "opacity" := VFloat 0.5%float ]})
        None None None None ∅ []).1 !! 0)
      ≫= (fun f => fig_data f !! 0) = Some (tr, pl) /\
    trace_props tr !! "open" = Some (VSeries [10; 11; 12]%float) /\
    trace_props tr !! "increasing"
      = Some (VDict {[ "line" := VDict {[ "color" := VStr "#1f77b4" ]} ]}).
Proof.
  destruct (price_trace_contents plotly_checks ex_settings (ex_self ex_frame)
              None None
              (Some {[ "name" := VStr "BTC"; "opacity" := VFloat 0.5%float ]})
              None None None None ∅ []
              (plot plotly_checks ex_settings (ex_self ex_frame) None None
                 (Some {[ "name" := VStr "BTC";
                          "opacity" := VFloat 0.5%float ]})
                 None None None None ∅ []).1 0 (fresh_figure true))
    as (io & ih & il & ic & lo & lh & ll & lc & name & plot_obj & f & tr & pl
        & Ho & _ & _ & _ & _ & _ & _ & _ & _ & Hf & Htr & _ & Hkeep);
    [sample_run|sample_run|].
  assert (Huntouched : forall k,
            addresses "name" k = false -> addresses "opacity" k = false ->
            untouched
              (default ∅
                 (Some ({[ "name" := VStr "BTC";
                           "opacity" := VFloat 0.5%float ]} : kwargs))) k).
  { intros k Hname Hopacity key v Hkey. simpl in Hkey.
    apply lookup_insert_Some in Hkey as [[<- _]|[_ Hkey]]; [done|].
    by apply lookup_singleton_Some in Hkey as [<- _]. }
  exists tr, pl. rewrite Hf. cbn [mbind option_bind]. split; [exact Htr|].
  assert (io = 0) as -> by (vm_compute in Ho; congruence).
  split.
  - rewrite (Hkeep "open") by (apply Huntouched; reflexivity). sample_run.
  - rewrite (Hkeep "increasing") by (apply Huntouched; reflexivity).
    sample_run.
Defined.

(** X6, the table without volume column, a figure of the caller's with two
    panels and placement arguments that ask for the second row: the one trace
    added is placed with just those. *)
Lemma hidden_volume_render_witness :
  exists f tr,
    (plot plotly_checks ex_settings (ex_self ex_frame_no_volume) None None
       None (Some {[ "opacity" := VInt 1 ]})
       (Some {[ "row" := VInt 2; "col" := VInt 1 ]})
       (Some {[ "row" := VInt 5 ]}) (Some 0) ∅ [ex_figure]).1 !! 0 = Some f /\
    fig_data f
    = fig_data ex_figure ++ [(tr, {[ "row" := VInt 2; "col" := VInt 1 ]})].
Proof.
  destruct (proj2 (hidden_volume_render plotly_checks ex_settings
                     (ex_self ex_frame_no_volume) None None None
                     (Some {[ "opacity" := VInt 1 ]})
                     (Some {[ "row" := VInt 2; "col" := VInt 1 ]})
                     (Some {[ "row" := VInt 5 ]}) (Some 0) ∅ [ex_figure]
                     ltac:(vm_compute; reflexivity))
              (plot plotly_checks ex_settings (ex_self ex_frame_no_volume)
                 None None None
                 (Some {[ "opacity" := VInt 1 ]})
                 (Some {[ "row" := VInt 2; "col" := VInt 1 ]})
                 (Some {[ "row" := VInt 5 ]}) (Some 0) ∅ [ex_figure]).1 0
              ex_figure)
    as (f & tr & Hf & Hdata);
    [sample_run|reflexivity|].
  exists f, tr. split; [exact Hf|exact Hdata].
Defined.

(** X10, the sample table plotted twice into the caller's figure, first with
    the volume and then without: the figure ends with 1 + 2 + 1 traces. *)
Lemma plot_twice_witness :
  exists f,
    (plot plotly_checks ex_settings (ex_self ex_frame) None (Some false) None None None
       None (Some 0) ∅
       (plot plotly_checks ex_settings (ex_self ex_frame) None None None None None None
          (Some 0) ∅ [ex_figure]).1).1 !! 0 = Some f /\
    length (fig_data f) = 4.
Proof.
  destruct (plot_twice plotly_checks
              ex_settings (ex_self ex_frame) None None None None None None ∅
              ex_settings (ex_self ex_frame) None (Some false) None None None
              None ∅
              0 [ex_figure]
              (plot plotly_checks ex_settings (ex_self ex_frame) None None None None None
                 None (Some 0) ∅ [ex_figure]).1
              (plot plotly_checks ex_settings (ex_self ex_frame) None (Some false) None
                 None None None (Some 0) ∅
                 (plot plotly_checks ex_settings (ex_self ex_frame) None None None None
                    None None (Some 0) ∅ [ex_figure]).1).1
              0 0 ex_figure)
    as (_ & _ & f & a1 & a2 & Hf & Hdata & Hlen1 & Hlen2 & _);
    [reflexivity|vm_compute; reflexivity|vm_compute; reflexivity|].
  exists f. split; [exact Hf|].
  rewrite Hdata, !length_app, Hlen1, Hlen2. vm_compute. reflexivity.
Defined.

(** X11, the sample table against its recased copy, with the mapping written
    in other cases and the plot type "OHLC" written "oHLc". *)
Lemma plot_casing_invariant_witness :
  plot plotly_checks {| ohlcv_column_names := ex_names_recased;
          ohlcv_plot_type := PTStr "oHLc";
          color_schema := ex_colors |}
    (ex_self ex_frame_recased) None None None None None None None ∅ []
  = plot plotly_checks ex_settings (ex_self ex_frame) None None None None None None None
      ∅ [].
Proof.
  apply plot_casing_invariant.
  - intros []; vm_compute; reflexivity.
  - vm_compute. repeat constructor.
  - reflexivity.
  - reflexivity.
  - reflexivity.
  - vm_compute. reflexivity.
Defined.
